(** * peloton-sync-psql: the synchronisation engine, embedded and verified

    The development follows the Python sources:
    - [peloton_sync/data_transformer.py] : [DataTransformer] (pure field
      mapping, run in the exception monad [result]);
    - [peloton_sync/models.py]           : the eight tables and their
      column defaults;
    - [peloton_sync/database.py]         : the session context manager;
    - [peloton_sync/data_loader.py]      : [DataLoader] (run in the monad
      [M] of computations that read and write a [World] and may raise).

    API payloads are Python values obtained from JSON; model instances are
    their attribute dictionaries ([__dict__]), kept in insertion order. *)

From Stdlib Require Import List String Ascii ZArith QArith Qround Bool Arith Lia.
Import ListNotations.
Close Scope Q_scope.
Local Open Scope nat_scope.
Local Open Scope string_scope.
Local Open Scope list_scope.

Set Implicit Arguments.
Set Warnings "-register-all".

(* ===================================================================== *)
(** ** Python values *)
(* ===================================================================== *)

(** [datetime]: the wall-clock reading and the attached [tzinfo]
    ([None] for a naive datetime, [Some off] for an aware one, [off] being
    the UTC offset in seconds). *)
Record datetime := mk_datetime { dt_wall : Z; dt_tzinfo : option Z }.

Definition utc : Z := 0%Z.

Definition replace_tzinfo (tz : Z) (d : datetime) : datetime :=
  mk_datetime (dt_wall d) (Some tz).

Definition aware (d : datetime) : Prop := dt_tzinfo d <> None.

Inductive value : Type :=
| VNone
| VBool (b : bool)
| VInt (n : Z)
| VFloat (x : Q)
| VStr (s : string)
| VList (l : list value)
| VDict (kv : list (string * value))
| VDatetime (d : datetime).

(** An object's attribute dictionary. *)
Definition obj := list (string * value).

Fixpoint lookup (k : string) (kv : list (string * value)) : option value :=
  match kv with
  | [] => None
  | (k', v) :: rest => if String.eqb k k' then Some v else lookup k rest
  end.

(** Python truthiness ([if x:]). *)
Definition truthy (v : value) : bool :=
  match v with
  | VNone => false
  | VBool b => b
  | VInt n => negb (n =? 0)%Z
  | VFloat x => negb (Qeq_bool x 0%Q)
  | VStr s => negb (String.eqb s "")
  | VList l => match l with [] => false | _ => true end
  | VDict kv => match kv with [] => false | _ => true end
  | VDatetime _ => true
  end.

Definition datetime_eqb (a b : datetime) : bool :=
  (dt_wall a =? dt_wall b)%Z &&
  match dt_tzinfo a, dt_tzinfo b with
  | None, None => true
  | Some x, Some y => (x =? y)%Z
  | _, _ => false
  end.

(** Equality of column values, as used by [filter(Model.col == v)]. *)
Fixpoint value_eqb (a b : value) {struct a} : bool :=
  match a, b with
  | VNone, VNone => true
  | VBool x, VBool y => Bool.eqb x y
  | VInt x, VInt y => (x =? y)%Z
  | VFloat x, VFloat y => Qeq_bool x y
  | VStr x, VStr y => String.eqb x y
  | VList x, VList y =>
      (fix go (l1 l2 : list value) {struct l1} : bool :=
         match l1, l2 with
         | [], [] => true
         | u :: l1', w :: l2' => value_eqb u w && go l1' l2'
         | _, _ => false
         end) x y
  | VDict x, VDict y =>
      (fix go (l1 l2 : list (string * value)) {struct l1} : bool :=
         match l1, l2 with
         | [], [] => true
         | (k1, u) :: l1', (k2, w) :: l2' =>
             String.eqb k1 k2 && value_eqb u w && go l1' l2'
         | _, _ => false
         end) x y
  | VDatetime x, VDatetime y => datetime_eqb x y
  | _, _ => false
  end.

(* ===================================================================== *)
(** ** Exceptions and the pure exception monad *)
(* ===================================================================== *)

Inductive exn : Type :=
| KeyError
| AttributeError
| TypeError
| ValueError
| OverflowError
| IntegrityError
| PelotonAPIError
| ParserError.

Definition is_ValueError (e : exn) : bool :=
  match e with ValueError => true | _ => false end.

Inductive result (A : Type) : Type :=
| Ok (a : A)
| Raise (e : exn).
Arguments Ok {A} a.
Arguments Raise {A} e.

Definition rbind {A B} (r : result A) (k : A -> result B) : result B :=
  match r with
  | Ok a => k a
  | Raise e => Raise e
  end.

Declare Scope result_scope.
Delimit Scope result_scope with res.
Notation "'let?' x ':=' e 'in' k" := (rbind e (fun x => k))
  (at level 10, x pattern, e at level 100, k at level 200) : result_scope.
Local Open Scope result_scope.

(** [try: body except Exception: handler] *)
Definition rtry {A} (body : result A) (handler : exn -> result A) : result A :=
  match body with
  | Ok a => Ok a
  | Raise e => handler e
  end.

(** [try: body except C: handler], other exceptions propagate. *)
Definition rtry_when {A} (catches : exn -> bool) (body : result A)
           (handler : exn -> result A) : result A :=
  match body with
  | Ok a => Ok a
  | Raise e => if catches e then handler e else Raise e
  end.

(* ===================================================================== *)
(** ** Built-in operations on payloads *)
(* ===================================================================== *)

(** [d.get(k, default)]: only dictionaries have [get]. *)
Definition dict_get (d : value) (k : string) (default : value) : result value :=
  match d with
  | VDict kv => Ok (match lookup k kv with Some v => v | None => default end)
  | _ => Raise AttributeError
  end.

(** [d[k]] with a string key. *)
Definition subscript (d : value) (k : string) : result value :=
  match d with
  | VDict kv => match lookup k kv with Some v => Ok v | None => Raise KeyError end
  | _ => Raise TypeError
  end.

Fixpoint chars (s : string) : list value :=
  match s with
  | EmptyString => []
  | String c rest => VStr (String c EmptyString) :: chars rest
  end.

Definition dict_keys (kv : list (string * value)) : list string :=
  nodup string_dec (map fst kv).

(** [len(x)] *)
Definition py_len (v : value) : result nat :=
  match v with
  | VStr s => Ok (String.length s)
  | VList l => Ok (List.length l)
  | VDict kv => Ok (List.length (dict_keys kv))
  | _ => Raise TypeError
  end.

(** The sequence a [for] loop walks over. *)
Definition py_iter (v : value) : result (list value) :=
  match v with
  | VStr s => Ok (chars s)
  | VList l => Ok l
  | VDict kv => Ok (map VStr (dict_keys kv))
  | _ => Raise TypeError
  end.

(** [x[-1]] on a truthy [x]. *)
Definition index_last (v : value) : result value :=
  match v with
  | VList l => Ok (last l VNone)
  | VStr s => Ok (last (chars s) VNone)
  | VDict _ => Raise KeyError
  | _ => Raise TypeError
  end.

(** Keyword arguments are evaluated left to right; the first one that
    raises aborts the call. *)
Fixpoint kwargs (args : list (string * result value)) : result obj :=
  match args with
  | [] => Ok []
  | (k, r) :: rest =>
      let? v := r in
      let? o := kwargs rest in
      Ok ((k, v) :: o)
  end.

(** A declarative model instance: its [__dict__] holds the private
    [_sa_instance_state] and the attributes given to the constructor. *)
Definition new_instance (args : list (string * result value)) : result obj :=
  let? o := kwargs args in
  Ok (("_sa_instance_state", VNone) :: o).

Definition getattr (o : obj) (k : string) : value :=
  match lookup k o with
  | Some v => v
  | None => VNone
  end.

Fixpoint setattr (o : obj) (k : string) (v : value) : obj :=
  match o with
  | [] => [(k, v)]
  | (k', v') :: rest =>
      if String.eqb k k' then (k, v) :: rest else (k', v') :: setattr rest k v
  end.

(* ===================================================================== *)
(** ** data_transformer.py *)
(* ===================================================================== *)

(** The library calls [_parse_timestamp] relies on. *)
Record Lib := {
  (** [dateutil.parser.parse] *)
  parse_date : string -> result datetime;
  (** [float(s)] on a string *)
  float_of_str : string -> result Q;
  (** wall clock of [datetime.fromtimestamp(x, tz=timezone.utc)] *)
  utc_wall_of_timestamp : Q -> result Z
}.

Section DataTransformer.

Variable L : Lib.

(** [datetime.fromtimestamp(x, tz=timezone.utc)]: the result carries the
    requested [tzinfo]. *)
Definition fromtimestamp_utc (x : Q) : result datetime :=
  let? t := utc_wall_of_timestamp L x in
  Ok (mk_datetime t (Some utc)).

Definition _parse_timestamp (timestamp : value) : result value :=
  match timestamp with
  | VNone => Ok VNone
  | _ =>
    rtry
      (match timestamp with
       (* isinstance(timestamp, (int, float)); bool is a subclass of int *)
       | VInt n => let? d := fromtimestamp_utc (inject_Z n) in Ok (VDatetime d)
       | VBool b =>
           let? d := fromtimestamp_utc (inject_Z (if b then 1 else 0)) in
           Ok (VDatetime d)
       | VFloat x => let? d := fromtimestamp_utc x in Ok (VDatetime d)
       | VStr s =>
           rtry
             (let? parsed_dt := parse_date L s in
              let parsed_dt :=
                match dt_tzinfo parsed_dt with
                | None => replace_tzinfo utc parsed_dt
                | Some _ => parsed_dt
                end in
              Ok (VDatetime parsed_dt))
             (fun _ =>
                rtry_when is_ValueError
                  (let? unix_timestamp := float_of_str L s in
                   let? d := fromtimestamp_utc unix_timestamp in
                   Ok (VDatetime d))
                  (fun _ => Ok VNone))
       | _ => Ok VNone
       end)
      (fun _ => Ok VNone)
  end.

Definition parse_field (d : value) (k : string) : result value :=
  let? raw := dict_get d k VNone in
  _parse_timestamp raw.

Definition transform_user_data (user_data : value) : result obj :=
  new_instance
    [ ("id", subscript user_data "id");
      ("username", dict_get user_data "username" (VStr ""));
      ("email", dict_get user_data "email" VNone);
      ("first_name", dict_get user_data "first_name" VNone);
      ("last_name", dict_get user_data "last_name" VNone);
      ("location", dict_get user_data "location" VNone);
      ("timezone", dict_get user_data "timezone" VNone);
      ("created_at", parse_field user_data "created_at") ].

Definition transform_instructor_data (instructor_data : value) : result obj :=
  new_instance
    [ ("id", subscript instructor_data "id");
      ("name", dict_get instructor_data "name" (VStr ""));
      ("first_name", dict_get instructor_data "first_name" VNone);
      ("last_name", dict_get instructor_data "last_name" VNone);
      ("bio", dict_get instructor_data "bio" VNone);
      ("image_url", dict_get instructor_data "image_url" VNone) ].

Definition transform_ride_data (ride_data : value) : result obj :=
  new_instance
    [ ("id", subscript ride_data "id");
      ("title", dict_get ride_data "title" (VStr ""));
      ("description", dict_get ride_data "description" VNone);
      ("instructor_id", dict_get ride_data "instructor_id" VNone);
      ("fitness_discipline", dict_get ride_data "fitness_discipline" (VStr ""));
      ("fitness_discipline_display_name",
        dict_get ride_data "fitness_discipline_display_name" VNone);
      ("duration", dict_get ride_data "duration" VNone);
      ("difficulty_estimate", dict_get ride_data "difficulty_estimate" VNone);
      ("difficulty_rating_avg", dict_get ride_data "difficulty_rating_avg" VNone);
      ("difficulty_rating_count", dict_get ride_data "difficulty_rating_count" VNone);
      ("overall_rating_avg", dict_get ride_data "overall_rating_avg" VNone);
      ("overall_rating_count", dict_get ride_data "overall_rating_count" VNone);
      ("total_workouts", dict_get ride_data "total_workouts" VNone);
      ("original_air_time", parse_field ride_data "original_air_time");
      ("scheduled_start_time", parse_field ride_data "scheduled_start_time");
      ("is_archived", dict_get ride_data "is_archived" (VBool false));
      ("is_explicit", dict_get ride_data "is_explicit" (VBool false));
      ("language", dict_get ride_data "language" VNone);
      ("location", dict_get ride_data "location" VNone);
      ("image_url", dict_get ride_data "image_url" VNone) ].

(** [workout_data.get("ride", {}).get("id") if workout_data.get("ride") else None] *)
Definition workout_ride_id (workout_data : value) : result value :=
  let? c := dict_get workout_data "ride" VNone in
  if truthy c then
    let? r := dict_get workout_data "ride" (VDict []) in
    dict_get r "id" VNone
  else Ok VNone.

Definition transform_workout_data (workout_data : value) : result obj :=
  new_instance
    [ ("id", subscript workout_data "id");
      ("user_id", dict_get workout_data "user_id" VNone);
      ("ride_id", workout_ride_id workout_data);
      ("name", dict_get workout_data "name" VNone);
      ("status", dict_get workout_data "status" (VStr ""));
      ("fitness_discipline", dict_get workout_data "fitness_discipline" (VStr ""));
      ("workout_type", dict_get workout_data "workout_type" VNone);
      ("device_type", dict_get workout_data "device_type" VNone);
      ("device_type_display_name",
        dict_get workout_data "device_type_display_name" VNone);
      ("platform", dict_get workout_data "platform" VNone);
      ("start_time", parse_field workout_data "start_time");
      ("end_time", parse_field workout_data "end_time");
      ("created_at_peloton", parse_field workout_data "created_at");
      ("device_time_created_at", parse_field workout_data "device_time_created_at");
      ("timezone", dict_get workout_data "timezone" VNone);
      ("total_work", dict_get workout_data "total_work" VNone);
      ("leaderboard_rank", dict_get workout_data "leaderboard_rank" VNone);
      ("total_leaderboard_users",
        dict_get workout_data "total_leaderboard_users" VNone);
      ("is_total_work_personal_record",
        dict_get workout_data "is_total_work_personal_record" (VBool false));
      ("has_leaderboard_metrics",
        dict_get workout_data "has_leaderboard_metrics" (VBool false));
      ("has_pedaling_metrics",
        dict_get workout_data "has_pedaling_metrics" (VBool false));
      ("metrics_type", dict_get workout_data "metrics_type" VNone);
      ("fitbit_id", dict_get workout_data "fitbit_id" VNone);
      ("strava_id", dict_get workout_data "strava_id" VNone);
      ("title", dict_get workout_data "title" VNone) ].

Definition transform_performance_summary_data
           (workout_id : value) (summary_data : value) : result obj :=
  new_instance
    [ ("workout_id", Ok workout_id);
      ("avg_cadence", dict_get summary_data "avg_cadence" VNone);
      ("avg_heart_rate", dict_get summary_data "avg_heart_rate" VNone);
      ("avg_power", dict_get summary_data "avg_power" VNone);
      ("avg_resistance", dict_get summary_data "avg_resistance" VNone);
      ("avg_speed", dict_get summary_data "avg_speed" VNone);
      ("max_cadence", dict_get summary_data "max_cadence" VNone);
      ("max_heart_rate", dict_get summary_data "max_heart_rate" VNone);
      ("max_power", dict_get summary_data "max_power" VNone);
      ("max_resistance", dict_get summary_data "max_resistance" VNone);
      ("max_speed", dict_get summary_data "max_speed" VNone);
      ("total_work", dict_get summary_data "total_work" VNone);
      ("calories", dict_get summary_data "calories" VNone);
      ("distance", dict_get summary_data "distance" VNone);
      ("seconds_since_pedaling_start",
        dict_get summary_data "seconds_since_pedaling_start" VNone);
      ("instant", parse_field summary_data "instant") ].

Definition transform_metric (workout_id : value) (metric_data : value) : result obj :=
  new_instance
    [ ("workout_id", Ok workout_id);
      ("seconds_since_pedaling_start",
        dict_get metric_data "seconds_since_pedaling_start" (VInt 0));
      ("cadence", dict_get metric_data "cadence" VNone);
      ("heart_rate", dict_get metric_data "heart_rate" VNone);
      ("power", dict_get metric_data "power" VNone);
      ("resistance", dict_get metric_data "resistance" VNone);
      ("speed", dict_get metric_data "speed" VNone) ].

(** [for x in xs: out.append(f(x))] *)
Fixpoint rmap {A B} (f : A -> result B) (xs : list A) : result (list B) :=
  match xs with
  | [] => Ok []
  | x :: rest =>
      let? y := f x in
      let? ys := rmap f rest in
      Ok (y :: ys)
  end.

Definition transform_performance_metrics_data
           (workout_id : value) (metrics_data : value) : result (list obj) :=
  let? items := py_iter metrics_data in
  rmap (transform_metric workout_id) items.

Definition transform_achievement (workout_id : value) (achievement_data : value)
  : result obj :=
  new_instance
    [ ("workout_id", Ok workout_id);
      ("achievement_id", dict_get achievement_data "id" (VStr ""));
      ("name", dict_get achievement_data "name" (VStr ""));
      ("description", dict_get achievement_data "description" VNone);
      ("slug", dict_get achievement_data "slug" VNone);
      ("image_url", dict_get achievement_data "image_url" VNone) ].

Definition transform_achievement_data
           (workout_id : value) (achievements_data : value) : result (list obj) :=
  let? items := py_iter achievements_data in
  rmap (transform_achievement workout_id) items.

Definition extract_workout_components (workout_data : value)
  : result (option obj * option obj * obj) :=
  let? ride_data := dict_get workout_data "ride" VNone in
  let? ir :=
    (if truthy ride_data then
       let? ride := transform_ride_data ride_data in
       let? instructor_data := dict_get ride_data "instructor" VNone in
       if truthy instructor_data then
         let? instructor := transform_instructor_data instructor_data in
         Ok (Some instructor, Some ride)
       else Ok (None, Some ride)
     else Ok (None, None)) in
  let? workout := transform_workout_data workout_data in
  Ok (fst ir, snd ir, workout).

End DataTransformer.

(* ===================================================================== *)
(** ** models.py: tables and column defaults *)
(* ===================================================================== *)

Inductive model : Type :=
| User
| Instructor
| Ride
| Workout
| WorkoutPerformanceSummary
| WorkoutPerformanceMetric
| WorkoutAchievement
| SyncLog.

(** The rows of each table, in insertion order. *)
Record DB := mk_DB {
  users : list obj;
  instructors : list obj;
  rides : list obj;
  workouts : list obj;
  workout_performance_summaries : list obj;
  workout_performance_metrics : list obj;
  workout_achievements : list obj;
  sync_logs : list obj
}.

Definition empty_DB : DB := mk_DB [] [] [] [] [] [] [] [].

Definition tbl (m : model) (db : DB) : list obj :=
  match m with
  | User => users db
  | Instructor => instructors db
  | Ride => rides db
  | Workout => workouts db
  | WorkoutPerformanceSummary => workout_performance_summaries db
  | WorkoutPerformanceMetric => workout_performance_metrics db
  | WorkoutAchievement => workout_achievements db
  | SyncLog => sync_logs db
  end.

Definition set_tbl (m : model) (t : list obj) (db : DB) : DB :=
  match m with
  | User => mk_DB t (instructors db) (rides db) (workouts db)
      (workout_performance_summaries db) (workout_performance_metrics db)
      (workout_achievements db) (sync_logs db)
  | Instructor => mk_DB (users db) t (rides db) (workouts db)
      (workout_performance_summaries db) (workout_performance_metrics db)
      (workout_achievements db) (sync_logs db)
  | Ride => mk_DB (users db) (instructors db) t (workouts db)
      (workout_performance_summaries db) (workout_performance_metrics db)
      (workout_achievements db) (sync_logs db)
  | Workout => mk_DB (users db) (instructors db) (rides db) t
      (workout_performance_summaries db) (workout_performance_metrics db)
      (workout_achievements db) (sync_logs db)
  | WorkoutPerformanceSummary => mk_DB (users db) (instructors db) (rides db)
      (workouts db) t (workout_performance_metrics db)
      (workout_achievements db) (sync_logs db)
  | WorkoutPerformanceMetric => mk_DB (users db) (instructors db) (rides db)
      (workouts db) (workout_performance_summaries db) t
      (workout_achievements db) (sync_logs db)
  | WorkoutAchievement => mk_DB (users db) (instructors db) (rides db)
      (workouts db) (workout_performance_summaries db)
      (workout_performance_metrics db) t (sync_logs db)
  | SyncLog => mk_DB (users db) (instructors db) (rides db) (workouts db)
      (workout_performance_summaries db) (workout_performance_metrics db)
      (workout_achievements db) t
  end.

(** [Column(Integer, primary_key=True, autoincrement=True)] *)
Definition autoincrement (m : model) : bool :=
  match m with
  | WorkoutPerformanceSummary | WorkoutPerformanceMetric
  | WorkoutAchievement | SyncLog => true
  | _ => false
  end.

(** Columns declared with [default=func.now()]. *)
Definition now_defaults (m : model) : list string :=
  match m with
  | User => ["updated_at"]
  | Instructor | Ride | Workout | WorkoutPerformanceSummary =>
      ["created_at"; "updated_at"]
  | WorkoutPerformanceMetric | WorkoutAchievement | SyncLog => ["created_at"]
  end.

(** Columns declared with a constant [default=]. *)
Definition const_defaults (m : model) : list (string * value) :=
  match m with
  | Ride => [("is_archived", VBool false); ("is_explicit", VBool false)]
  | Workout => [("is_total_work_personal_record", VBool false);
                ("has_leaderboard_metrics", VBool false);
                ("has_pedaling_metrics", VBool false)]
  | SyncLog => [("workouts_processed", VInt 0); ("workouts_created", VInt 0);
                ("workouts_updated", VInt 0); ("errors_count", VInt 0)]
  | _ => []
  end.

(** A default fills a column only when the attribute was never set. *)
Definition setdefault (o : obj) (k : string) (v : value) : obj :=
  match lookup k o with
  | Some _ => o
  | None => o ++ [(k, v)]
  end.

Definition apply_defaults (m : model) (now : value) (fresh_id : Z) (o : obj) : obj :=
  let o := if autoincrement m then setdefault o "id" (VInt fresh_id) else o in
  let o := fold_left (fun o kv => setdefault o (fst kv) (snd kv)) (const_defaults m) o in
  fold_left (fun o k => setdefault o k now) (now_defaults m) o.

(* ===================================================================== *)
(** ** The world a run reads and writes *)
(* ===================================================================== *)

(** The [stats] dictionary of [sync_workouts]. *)
Record Stats := mk_Stats {
  processed : nat;
  created : nat;
  updated : nat;
  errors : nat
}.

Definition zero_stats : Stats := mk_Stats 0 0 0 0.

(** What the run asks of its two collaborators. *)
Inductive event : Type :=
| ApiGetUserInfo
| ApiGetUserWorkouts (limit : Z) (joins : string)
| ApiGetWorkoutPerformanceGraph (workout_id : value)
| SessionQuery (m : model)
| SessionDelete (m : model)
| SessionAdd (m : model)
| SessionFlush
| SessionCommit
| SessionRollback.

(** [committed] is what the database holds durably; [current] is what the
    session sees inside its open transaction (flushed and pending rows
    alike: no query of the loader is issued between the registration of a
    row and the flush that would make it visible to a query on its table).
    [stats] is the dictionary object [sync_workouts] allocates and mutates
    in place, so increments made before an exception survive it.
    [trace] lists the requests made so far, the latest first. *)
Record World := mk_World {
  committed : DB;
  current : DB;
  clock : Z;
  next_id : Z;
  stats : Stats;
  trace : list event
}.

Definition empty_World : World := mk_World empty_DB empty_DB 0 1 zero_stats [].

Definition with_current (db : DB) (w : World) : World :=
  mk_World (committed w) db (clock w) (next_id w) (stats w) (trace w).

Definition with_stats (s : Stats) (w : World) : World :=
  mk_World (committed w) (current w) (clock w) (next_id w) s (trace w).

Definition log (e : event) (w : World) : World :=
  mk_World (committed w) (current w) (clock w) (next_id w) (stats w)
           (e :: trace w).

(** Computations of the loader: they transform the world and either return
    or raise; what was done before an exception stays done. *)
Definition M (A : Type) : Type := World -> result A * World.

Definition ret {A} (a : A) : M A := fun w => (Ok a, w).

Definition raise {A} (e : exn) : M A := fun w => (Raise e, w).

Definition bind {A B} (m : M A) (k : A -> M B) : M B :=
  fun w =>
    match m w with
    | (Ok a, w1) => k a w1
    | (Raise e, w1) => (Raise e, w1)
    end.

Definition lift {A} (r : result A) : M A := fun w => (r, w).

(** [try: body except Exception as e: handler] *)
Definition try_ {A} (body : M A) (handler : exn -> M A) : M A :=
  fun w =>
    match body w with
    | (Ok a, w1) => (Ok a, w1)
    | (Raise e, w1) => handler e w1
    end.

Declare Scope loader_scope.
Delimit Scope loader_scope with loader.
Notation "x <- e ;; k" := (bind e (fun x => k))
  (at level 100, e at next level, right associativity) : loader_scope.
Notation "e ;; k" := (bind e (fun _ => k))
  (at level 100, right associativity) : loader_scope.
Local Open Scope loader_scope.

(** [for x in xs: body(x)] *)
Fixpoint for_each {A} (xs : list A) (body : A -> M unit) : M unit :=
  match xs with
  | [] => ret tt
  | x :: rest => body x ;; for_each rest body
  end.

(** The remote data source: what each endpoint answers. *)
Record Api := {
  get_user_info : result value;
  get_user_workouts : Z -> string -> result value;
  get_workout_performance_graph : value -> result value
}.

(* ===================================================================== *)
(** ** The session (database.py) *)
(* ===================================================================== *)

Definition matches (col : string) (v : value) (row : obj) : bool :=
  value_eqb (getattr row col) v.

Fixpoint replace_first (p : obj -> bool) (new : obj) (t : list obj) : list obj :=
  match t with
  | [] => []
  | r :: rest => if p r then new :: rest else r :: replace_first p new rest
  end.

Section Session.

(** The constraints the database enforces when rows are flushed. *)
Variable store_accepts : DB -> bool.

(** [session.query(m).filter(m.col == v).first()] *)
Definition query_first (m : model) (col : string) (v : value) : M (option obj) :=
  fun w => (Ok (hd_error (filter (matches col v) (tbl m (current w)))),
            log (SessionQuery m) w).

(** The object [query_first] returned is the row itself: attribute writes
    on it land on the first row with that key. *)
Definition write_back (m : model) (col : string) (v : value) (o : obj) : M unit :=
  fun w => (Ok tt,
            with_current
              (set_tbl m (replace_first (matches col v) o (tbl m (current w)))
                       (current w)) w).

(** [session.query(m).filter(m.col == v).delete()] *)
Definition query_delete (m : model) (col : string) (v : value) : M unit :=
  fun w => (Ok tt,
            log (SessionDelete m)
              (with_current
                 (set_tbl m (filter (fun r => negb (matches col v r))
                                    (tbl m (current w)))
                          (current w)) w)).

(** [session.add(o)]; the row is returned as the database will hold it. *)
Definition session_add (m : model) (o : obj) : M obj :=
  fun w =>
    let row := apply_defaults m (VDatetime (mk_datetime (clock w) (Some utc)))
                              (next_id w) o in
    (Ok row,
     mk_World (committed w)
              (set_tbl m (tbl m (current w) ++ [row]) (current w))
              (clock w)
              (if autoincrement m then (next_id w + 1)%Z else next_id w)
              (stats w)
              (SessionAdd m :: trace w)).

(** [session.add_all(os)] *)
Fixpoint add_all (m : model) (os : list obj) : M unit :=
  match os with
  | [] => ret tt
  | o :: rest => _ <- session_add m o ;; add_all m rest
  end.

(** [session.flush()] *)
Definition flush : M unit :=
  fun w => (if store_accepts (current w) then Ok tt else Raise IntegrityError,
            log SessionFlush w).

(** [session.commit()] *)
Definition commit : M unit :=
  fun w =>
    if store_accepts (current w)
    then (Ok tt,
          mk_World (current w) (current w) (clock w) (next_id w) (stats w)
                   (SessionCommit :: trace w))
    else (Raise IntegrityError, log SessionCommit w).

(** [session.rollback()] *)
Definition rollback : M unit :=
  fun w => (Ok tt,
            mk_World (committed w) (committed w) (clock w) (next_id w) (stats w)
                     (SessionRollback :: trace w)).

(** [datetime.now(timezone.utc)] *)
Definition now : M value :=
  fun w => (Ok (VDatetime (mk_datetime (clock w) (Some utc))),
            mk_World (committed w) (current w) (clock w + 1)%Z (next_id w)
                     (stats w) (trace w)).

(** [get_db_session]: commit on normal exit, roll back and re-raise on an
    exception. *)
Definition get_db_session {A} (body : M A) : M A :=
  try_ (r <- body ;; commit ;; ret r)
       (fun e => rollback ;; raise e).

End Session.

(* ===================================================================== *)
(** ** data_loader.py *)
(* ===================================================================== *)

(** [for key, value in candidate.__dict__.items():
       if not key.startswith('_') and key not in blocklist:
           setattr(existing, key, value)] *)
Definition copied (blocklist : list string) (key : string) : bool :=
  negb (String.prefix "_" key) && negb (existsb (String.eqb key) blocklist).

Definition copy_fields (blocklist : list string) (candidate existing : obj) : obj :=
  fold_left
    (fun ex kv => if copied blocklist (fst kv) then setattr ex (fst kv) (snd kv) else ex)
    candidate existing.

Definition incr_created : M unit :=
  fun w => let s := stats w in
    (Ok tt, with_stats (mk_Stats (processed s) (S (created s)) (updated s) (errors s)) w).

Definition incr_updated : M unit :=
  fun w => let s := stats w in
    (Ok tt, with_stats (mk_Stats (processed s) (created s) (S (updated s)) (errors s)) w).

Definition incr_errors : M unit :=
  fun w => let s := stats w in
    (Ok tt, with_stats (mk_Stats (processed s) (created s) (updated s) (S (errors s))) w).

Definition set_processed (n : nat) : M unit :=
  fun w => let s := stats w in
    (Ok tt, with_stats (mk_Stats n (created s) (updated s) (errors s)) w).

(** The dictionary [full_sync] returns. *)
Record SyncResult := mk_SyncResult {
  res_status : string;
  res_user_id : value;
  res_stats : Stats;
  res_sync_log_id : value
}.

Section DataLoader.

Variable L : Lib.
Variable store_accepts : DB -> bool.
Variable api : Api.

Definition api_get_user_info : M value :=
  fun w => (get_user_info api, log ApiGetUserInfo w).

Definition api_get_user_workouts (limit : Z) (joins : string) : M value :=
  fun w => (get_user_workouts api limit joins, log (ApiGetUserWorkouts limit joins) w).

Definition api_get_workout_performance_graph (workout_id : value) : M value :=
  fun w => (get_workout_performance_graph api workout_id,
            log (ApiGetWorkoutPerformanceGraph workout_id) w).

(** Lines 122-129 and their copies: the branch taken when a row exists. *)
Definition update_existing (m : model) (col : string) (key : value)
           (blocklist : list string) (candidate existing : obj) : M obj :=
  let existing := copy_fields blocklist candidate existing in
  t <- now ;;
  let existing := setattr existing "updated_at" t in
  write_back m col key existing ;;
  ret existing.

Definition sync_user_data : M obj :=
  user_data <- api_get_user_info ;;
  user <- lift (transform_user_data L user_data) ;;
  existing_user <- query_first User "id" (getattr user "id") ;;
  user <- match existing_user with
          | Some existing_user =>
              update_existing User "id" (getattr user "id") ["id"] user existing_user
          | None => session_add User user
          end ;;
  flush store_accepts ;;
  ret user.

Definition upsert_instructor (instructor : obj) : M obj :=
  existing <- query_first Instructor "id" (getattr instructor "id") ;;
  match existing with
  | Some existing =>
      update_existing Instructor "id" (getattr instructor "id")
                      ["id"; "created_at"] instructor existing
  | None => session_add Instructor instructor
  end.

Definition upsert_ride (ride : obj) : M obj :=
  existing <- query_first Ride "id" (getattr ride "id") ;;
  match existing with
  | Some existing =>
      update_existing Ride "id" (getattr ride "id")
                      ["id"; "created_at"] ride existing
  | None => session_add Ride ride
  end.

Definition upsert_workout (workout : obj) : M (obj * bool) :=
  existing <- query_first Workout "id" (getattr workout "id") ;;
  match existing with
  | Some existing =>
      existing <- update_existing Workout "id" (getattr workout "id")
                                  ["id"; "created_at"] workout existing ;;
      ret (existing, false)
  | None =>
      workout <- session_add Workout workout ;;
      ret (workout, true)
  end.

(** Lines 148-169: the summary part of the [try] body. *)
Definition sync_performance_summary (workout_id perf_data : value) : M unit :=
  summary_data <- lift (dict_get perf_data "summaries" (VList [])) ;;
  if truthy summary_data then
    final_summary <- lift (index_last summary_data) ;;
    if truthy final_summary then
      perf_summary <-
        lift (transform_performance_summary_data L workout_id final_summary) ;;
      existing_summary <-
        query_first WorkoutPerformanceSummary "workout_id" workout_id ;;
      match existing_summary with
      | Some existing_summary =>
          _ <- update_existing WorkoutPerformanceSummary "workout_id" workout_id
                               ["id"; "created_at"] perf_summary existing_summary ;;
          ret tt
      | None =>
          _ <- session_add WorkoutPerformanceSummary perf_summary ;;
          ret tt
      end
    else ret tt
  else ret tt.

(** Lines 171-186: the time-series part of the [try] body. *)
Definition sync_performance_metrics (workout_id perf_data : value) : M unit :=
  metrics_data <- lift (dict_get perf_data "metrics" (VList [])) ;;
  if truthy metrics_data then
    query_delete WorkoutPerformanceMetric "workout_id" workout_id ;;
    metrics <- lift (transform_performance_metrics_data workout_id metrics_data) ;;
    add_all WorkoutPerformanceMetric metrics
  else ret tt.

Definition sync_workout_performance_data (workout_id : value) : M unit :=
  try_
    (perf_data <- api_get_workout_performance_graph workout_id ;;
     sync_performance_summary workout_id perf_data ;;
     sync_performance_metrics workout_id perf_data)
    (* Don't raise - performance data is optional *)
    (fun _ => ret tt).

Definition sync_workout_achievements (workout_data : value) : M unit :=
  workout_id <- lift (dict_get workout_data "id" VNone) ;;
  if negb (truthy workout_id) then ret tt else
  achievements_data <-
    lift (dict_get workout_data "achievement_templates" (VList [])) ;;
  if negb (truthy achievements_data) then ret tt else
  (* logger.info(..., count=len(achievements_data)) *)
  _ <- lift (py_len achievements_data) ;;
  query_delete WorkoutAchievement "workout_id" workout_id ;;
  achievements <- lift (transform_achievement_data workout_id achievements_data) ;;
  add_all WorkoutAchievement achievements.

(** Lines 255-274: from the extraction to the achievements. *)
Definition reconcile_records (workout_data : value) : M obj :=
  components <- lift (extract_workout_components L workout_data) ;;
  let instructor := fst (fst components) in
  let ride := snd (fst components) in
  let workout := snd components in
  match instructor with
  | Some instructor => _ <- upsert_instructor instructor ;; ret tt
  | None => ret tt
  end ;;
  match ride with
  | Some ride => _ <- upsert_ride ride ;; ret tt
  | None => ret tt
  end ;;
  upserted <- upsert_workout workout ;;
  let workout := fst upserted in
  let is_new := snd upserted in
  (if is_new then incr_created else incr_updated) ;;
  sync_workout_achievements workout_data ;;
  ret workout.

(** Lines 277-279: the condition guarding the performance sync. *)
Definition detail_gate (include_performance : bool) (workout : obj) : bool :=
  include_performance
  && value_eqb (getattr workout "status") (VStr "COMPLETE")
  && truthy (getattr workout "has_pedaling_metrics").

(** Lines 255-283: the [try] body of one loop iteration. *)
Definition reconcile (include_performance : bool) (workout_data : value) : M unit :=
  workout <- reconcile_records workout_data ;;
  (if detail_gate include_performance workout
   then sync_workout_performance_data (getattr workout "id")
   else ret tt) ;;
  (* Commit after each workout to avoid large transactions *)
  commit store_accepts.

(** Lines 254-289: one loop iteration with its handler. *)
Definition sync_one_workout (include_performance : bool) (workout_data : value)
  : M unit :=
  try_
    (reconcile include_performance workout_data)
    (fun _ =>
       (* logger.error(..., workout_id=workout_data.get("id"), ...) *)
       _ <- lift (dict_get workout_data "id" VNone) ;;
       incr_errors ;;
       rollback).

(** Lines 244-289: the body of the outer [try]. *)
Definition list_and_sync (limit : Z) (include_performance : bool) : M unit :=
  workouts_data <- api_get_user_workouts limit "ride,ride.instructor" ;;
  workouts <- lift (dict_get workouts_data "data" (VList [])) ;;
  n <- lift (py_len workouts) ;;
  set_processed n ;;
  items <- lift (py_iter workouts) ;;
  for_each items (sync_one_workout include_performance).

Definition sync_workouts (user_id : value) (limit : Z) (include_performance : bool)
  : M Stats :=
  (fun w => (Ok tt, with_stats zero_stats w)) ;;
  try_
    (list_and_sync limit include_performance)
    (fun _ => incr_errors ;; rollback) ;;
  (fun w => (Ok (stats w), w)).

Definition create_sync_log (user_id : value) (sync_type status : string)
           (stats : Stats) (error_message : value) : M obj :=
  started_at <- now ;;
  completed_at <- now ;;
  sync_log <-
    lift (new_instance
            [ ("user_id", Ok user_id);
              ("sync_type", Ok (VStr sync_type));
              ("status", Ok (VStr status));
              ("started_at", Ok started_at);
              ("completed_at", Ok completed_at);
              ("workouts_processed", Ok (VInt (Z.of_nat (processed stats))));
              ("workouts_created", Ok (VInt (Z.of_nat (created stats))));
              ("workouts_updated", Ok (VInt (Z.of_nat (updated stats))));
              ("errors_count", Ok (VInt (Z.of_nat (errors stats))));
              ("error_message", Ok error_message) ]) ;;
  session_add SyncLog sync_log.

Definition full_sync (user_id : value) (max_workouts : Z) (include_performance : bool)
  : M SyncResult :=
  get_db_session store_accepts
    (try_
       (user <- sync_user_data ;;
        let target_user_id := if truthy user_id then user_id else getattr user "id" in
        stats <- sync_workouts target_user_id max_workouts include_performance ;;
        let status := "success" in
        let status :=
          if (0 <? errors stats)%nat
          then (if (0 <? created stats + updated stats)%nat then "partial" else "error")
          else status in
        sync_log <- create_sync_log target_user_id "full" status stats VNone ;;
        commit store_accepts ;;
        ret (mk_SyncResult status target_user_id stats (getattr sync_log "id")))
       (fun e => rollback ;; raise e)).

End DataLoader.

(* ===================================================================== *)
(** ** models.py: the declared constraints *)
(* ===================================================================== *)

Definition is_none (v : value) : bool :=
  match v with VNone => true | _ => false end.

(** [nullable=False] and primary-key columns. *)
Definition not_null_columns (m : model) : list string :=
  match m with
  | User => ["id"; "username"; "created_at"; "updated_at"]
  | Instructor => ["id"; "name"; "created_at"; "updated_at"]
  | Ride => ["id"; "title"; "fitness_discipline"; "created_at"; "updated_at"]
  | Workout => ["id"; "user_id"; "status"; "fitness_discipline"; "start_time";
                "created_at_peloton"; "created_at"; "updated_at"]
  | WorkoutPerformanceSummary => ["id"; "workout_id"; "created_at"; "updated_at"]
  | WorkoutPerformanceMetric =>
      ["id"; "workout_id"; "seconds_since_pedaling_start"; "created_at"]
  | WorkoutAchievement =>
      ["id"; "workout_id"; "achievement_id"; "name"; "created_at"]
  | SyncLog => ["id"; "user_id"; "sync_type"; "status"; "started_at"; "created_at"]
  end.

(** Primary keys, [unique=True] and [UniqueConstraint]s. *)
Definition unique_keys (m : model) : list (list string) :=
  match m with
  | WorkoutPerformanceSummary => [["id"]; ["workout_id"]]
  | WorkoutPerformanceMetric =>
      [["id"]; ["workout_id"; "seconds_since_pedaling_start"]]
  | WorkoutAchievement => [["id"]; ["workout_id"; "achievement_id"]]
  | _ => [["id"]]
  end.

(** [ForeignKey]s: column and referenced table (always its [id]). *)
Definition foreign_keys (m : model) : list (string * model) :=
  match m with
  | Ride => [("instructor_id", Instructor)]
  | Workout => [("user_id", User); ("ride_id", Ride)]
  | WorkoutPerformanceSummary | WorkoutPerformanceMetric | WorkoutAchievement =>
      [("workout_id", Workout)]
  | SyncLog => [("user_id", User)]
  | _ => []
  end.

Definition all_models : list model :=
  [User; Instructor; Ride; Workout; WorkoutPerformanceSummary;
   WorkoutPerformanceMetric; WorkoutAchievement; SyncLog].

Definition same_key (cols : list string) (a b : obj) : bool :=
  forallb (fun c => value_eqb (getattr a c) (getattr b c)) cols.

Fixpoint distinct_on (cols : list string) (t : list obj) : bool :=
  match t with
  | [] => true
  | r :: rest => negb (existsb (same_key cols r) rest) && distinct_on cols rest
  end.

Definition table_ok (db : DB) (m : model) : bool :=
  forallb (fun r => forallb (fun c => negb (is_none (getattr r c)))
                            (not_null_columns m)) (tbl m db)
  && forallb (fun cols => distinct_on cols (tbl m db)) (unique_keys m)
  && forallb (fun fk =>
                forallb (fun r =>
                           is_none (getattr r (fst fk))
                           || existsb (matches "id" (getattr r (fst fk)))
                                      (tbl (snd fk) db))
                        (tbl m db))
             (foreign_keys m).

(** The store that enforces exactly what models.py declares. *)
Definition schema_accepts (db : DB) : bool := forallb (table_ok db) all_models.

(* ===================================================================== *)
(** ** Sample environment and payloads *)
(* ===================================================================== *)

(** Integral epoch seconds are read as such; nothing else parses. *)
Definition sample_lib : Lib :=
  {| parse_date := fun _ => Raise ParserError;
     float_of_str := fun _ => Raise ValueError;
     utc_wall_of_timestamp := fun x => Ok (Qfloor x) |}.

Definition sample_user (username : string) (created_at : Z) : value :=
  VDict [("id", VStr "u1"); ("username", VStr username);
         ("created_at", VInt created_at)].

Definition sample_workout (id : string) : value :=
  VDict [("id", VStr id); ("user_id", VStr "u1"); ("status", VStr "COMPLETE");
         ("fitness_discipline", VStr "cycling");
         ("start_time", VInt 2000); ("created_at", VInt 2000);
         ("has_pedaling_metrics", VBool true)].

(** A workout payload without its identity field. *)
Definition workout_without_id : value :=
  VDict [("user_id", VStr "u1"); ("status", VStr "COMPLETE");
         ("fitness_discipline", VStr "cycling");
         ("start_time", VInt 2000); ("created_at", VInt 2000)].

(** A workout payload without the mandatory [start_time]. *)
Definition workout_without_start_time (id : string) : value :=
  VDict [("id", VStr id); ("user_id", VStr "u1"); ("status", VStr "COMPLETE");
         ("fitness_discipline", VStr "cycling"); ("created_at", VInt 2000)].

(** A workout payload whose achievement list holds a bare string. *)
Definition workout_with_bad_achievement (id : string) : value :=
  VDict [("id", VStr id); ("user_id", VStr "u1"); ("status", VStr "COMPLETE");
         ("fitness_discipline", VStr "cycling");
         ("start_time", VInt 2000); ("created_at", VInt 2000);
         ("achievement_templates", VList [VStr "x"])].

Definition sample_metric (t : Z) : value :=
  VDict [("seconds_since_pedaling_start", VInt t); ("cadence", VInt 80)].

Definition graph_of (ms : list value) : value :=
  VDict [("summaries", VList []); ("metrics", VList ms)].

Definition sample_api (user : value) (workouts : result value)
           (graph : value -> result value) : Api :=
  {| get_user_info := Ok user;
     get_user_workouts := fun _ _ => workouts;
     get_workout_performance_graph := graph |}.

Definition listing (ws : list value) : result value := Ok (VDict [("data", VList ws)]).

Definition no_graph : value -> result value := fun _ => Raise PelotonAPIError.

(* ===================================================================== *)
(** ** Observations used in the statements *)
(* ===================================================================== *)

Definition is_detail_fetch (e : event) : bool :=
  match e with ApiGetWorkoutPerformanceGraph _ => true | _ => false end.

(** How many times the performance graph was requested so far. *)
Definition detail_fetches (w : World) : nat :=
  List.length (filter is_detail_fetch (trace w)).

Definition session_table (m : model) (w : World) : list obj := tbl m (current w).

(** The metric rows the session holds for one workout. *)
Definition metric_rows_of (workout_id : value) (w : World) : list obj :=
  filter (matches "workout_id" workout_id) (workout_performance_metrics (current w)).

Definition is_dict (v : value) : bool :=
  match v with VDict _ => true | _ => false end.

(** The shape the performance-graph endpoint documents: an object whose
    [summaries] and [metrics], when present, are lists of objects. *)
Definition list_of_dicts (v : value) : bool :=
  match v with VList l => forallb is_dict l | _ => false end.

(** The status [full_sync] derives from the counters (lines 379-382). *)
Definition status_of (st : Stats) : string :=
  if (0 <? errors st)%nat
  then (if (0 <? created st + updated st)%nat then "partial" else "error")
  else "success".

(** The world a first run leaves: user [u1] and workout [w1] stored. *)
Definition first_run_world : World :=
  snd (full_sync sample_lib schema_accepts
         (sample_api (sample_user "rider" 1000) (listing [sample_workout "w1"])
                     no_graph)
         VNone 100 true empty_World).

(* ===================================================================== *)
(** ** The remaining helpers and callers *)
(* ===================================================================== *)

(** [DataTransformer._safe_get_nested(data, *keys, default=default)] *)
Fixpoint _safe_get_nested (data : value) (keys : list string) (default : value)
  : value :=
  match keys with
  | [] => data
  | key :: rest =>
      match data with
      | VDict kv =>
          match lookup key kv with
          | Some v => _safe_get_nested v rest default
          | None => default
          end
      | _ => default
      end
  end.

(** The sort key of [order_by(desc(SyncLog.completed_at))]: rows without a
    completion time come first in PostgreSQL's descending order. *)
Definition completed_key (row : obj) : option Z :=
  match getattr row "completed_at" with
  | VDatetime d => Some (dt_wall d)
  | _ => None
  end.

(** [later a b]: [a] sorts strictly before [b]. *)
Definition later (a b : obj) : bool :=
  match completed_key a, completed_key b with
  | None, Some _ => true
  | Some x, Some y => (y <? x)%Z
  | _, _ => false
  end.

(** [.order_by(desc(...)).first()] *)
Fixpoint first_desc (rows : list obj) : option obj :=
  match rows with
  | [] => None
  | r :: rest =>
      match first_desc rest with
      | Some best => if later best r then Some best else Some r
      | None => Some r
      end
  end.

Definition get_last_sync_time (user_id : value) : M value :=
  fun w =>
    let last_sync :=
      first_desc
        (filter (fun r => matches "user_id" user_id r
                          && matches "status" (VStr "success") r)
                (tbl SyncLog (current w))) in
    (Ok (match last_sync with
         | Some last_sync => getattr last_sync "completed_at"
         | None => VNone
         end),
     log (SessionQuery SyncLog) w).

(** main.py, [PelotonDataSync.sync_data]: [loader] tells whether
    [self.data_loader] is set; [config_max] and [config_performance] are
    [app_config.max_workouts_per_sync] and
    [app_config.include_performance_data]. *)
Definition sync_data (L : Lib) (store_accepts : DB -> bool) (api : Api)
           (loader : bool) (config_max : Z) (config_performance : bool)
           (max_workouts : option Z) (include_performance : bool) : M bool :=
  if negb loader then ret false else
  (* max_workouts or self.app_config.max_workouts_per_sync *)
  let max_workouts :=
    match max_workouts with
    | Some n => if (n =? 0)%Z then config_max else n
    | None => config_max
    end in
  let include_performance := include_performance && config_performance in
  try_
    (result <- full_sync L store_accepts api VNone max_workouts
                         include_performance ;;
     if String.eqb (res_status result) "success" then ret true
     else if String.eqb (res_status result) "partial" then ret true
     else ret false)
    (fun _ => ret false).

(* ===================================================================== *)
(** ** Predicates on loader computations *)
(* ===================================================================== *)

(** [keeps f m]: whatever [m] does and however it ends, the observation [f]
    of the world is the same after as before. *)
Definition keeps {X A} (f : World -> X) (m : M A) : Prop :=
  forall w, f (snd (m w)) = f w.

(** [preserves P m]: if [P] holds before [m], it holds after, however [m]
    ends. *)
Definition preserves {A} (P : World -> Prop) (m : M A) : Prop :=
  forall w, P w -> P (snd (m w)).

(** The ledger is [ledger] in the session and in the database alike, and
    the clock has not gone back behind [since]. *)
Definition steady (ledger : list obj) (since : Z) (w : World) : Prop :=
  tbl SyncLog (current w) = ledger /\
  tbl SyncLog (committed w) = ledger /\
  (since <= clock w)%Z.

(** The counters, read off the world. *)
Definition done_count (w : World) : nat := created (stats w) + updated (stats w).
Definition error_count (w : World) : nat := errors (stats w).
Definition processed_count (w : World) : nat := processed (stats w).

(** [counts m]: [m] counts one more workout as done when it returns, and at
    most one when it raises. *)
Definition counts {A} (m : M A) : Prop :=
  forall w,
    match fst (m w) with
    | Ok _ => done_count (snd (m w)) = S (done_count w)
    | Raise _ => done_count (snd (m w)) = done_count w \/
                 done_count (snd (m w)) = S (done_count w)
    end.

(* ===================================================================== *)
(** * Properties *)
(* ===================================================================== *)

(** ** Attribute dictionaries *)

Lemma datetime_eqb_refl (d : datetime) : datetime_eqb d d = true.
Proof.
  unfold datetime_eqb. rewrite Z.eqb_refl. simpl.
  destruct (dt_tzinfo d); [apply Z.eqb_refl | reflexivity].
Qed.

Lemma value_eqb_refl : forall v : value, value_eqb v v = true.
Proof.
  fix IH 1.
  intros [ | b | n | x | s | l | kv | d ]; simpl.
  - reflexivity.
  - destruct b; reflexivity.
  - apply Z.eqb_refl.
  - apply Qeq_eq_bool. reflexivity.
  - apply String.eqb_refl.
  - induction l as [ | u l IHl ]; [ reflexivity | ].
    rewrite IH. simpl. exact IHl.
  - induction kv as [ | [k u] kv IHkv ]; [ reflexivity | ].
    rewrite String.eqb_refl, IH. simpl. exact IHkv.
  - apply datetime_eqb_refl.
Qed.

Lemma lookup_setattr (o : obj) (k k' : string) (v : value) :
  lookup k (setattr o k' v) = if String.eqb k k' then Some v else lookup k o.
Proof.
  induction o as [ | [k0 v0] o IH ]; simpl.
  - destruct (String.eqb k k'); reflexivity.
  - destruct (String.eqb k' k0) eqn:E; simpl.
    + apply String.eqb_eq in E. subst k0.
      destruct (String.eqb k k'); reflexivity.
    + destruct (String.eqb k k0) eqn:E0.
      * apply String.eqb_eq in E0. subst k0.
        rewrite String.eqb_sym in E. rewrite E. reflexivity.
      * exact IH.
Qed.

Lemma lookup_app (k : string) (o1 o2 : obj) :
  lookup k (o1 ++ o2) =
  match lookup k o1 with Some v => Some v | None => lookup k o2 end.
Proof.
  induction o1 as [ | [k0 v0] o1 IH ]; simpl; [ reflexivity | ].
  destruct (String.eqb k k0); [ reflexivity | exact IH ].
Qed.

Lemma lookup_setdefault (o : obj) (k k' : string) (v v' : value) :
  lookup k o = Some v -> lookup k (setdefault o k' v') = Some v.
Proof.
  intro H. unfold setdefault. destruct (lookup k' o); [ exact H | ].
  rewrite lookup_app, H. reflexivity.
Qed.

Lemma lookup_apply_defaults (m : model) (now : value) (i : Z) (o : obj)
      (k : string) (v : value) :
  lookup k o = Some v -> lookup k (apply_defaults m now i o) = Some v.
Proof.
  intro H. unfold apply_defaults.
  set (o1 := if autoincrement m then setdefault o "id" (VInt i) else o).
  assert (H1 : lookup k o1 = Some v).
  { unfold o1. destruct (autoincrement m); [ now apply lookup_setdefault | exact H ]. }
  clearbody o1. clear H.
  assert (H2 : forall l o2, lookup k o2 = Some v ->
             lookup k (fold_left (fun o kv => setdefault o (fst kv) (snd kv)) l o2) = Some v).
  { induction l as [ | kv l IHl ]; simpl; intros o2 Ho2; [ exact Ho2 | ].
    apply IHl. now apply lookup_setdefault. }
  assert (H3 : forall l o2, lookup k o2 = Some v ->
             lookup k (fold_left (fun o c => setdefault o c now) l o2) = Some v).
  { induction l as [ | c l IHl ]; simpl; intros o2 Ho2; [ exact Ho2 | ].
    apply IHl. now apply lookup_setdefault. }
  apply H3, H2, H1.
Qed.

(** The attribute loop, read off the candidate: the last binding of a copied
    key wins, every other key keeps the existing value. *)
Lemma lookup_copy_fields (blocklist : list string) (candidate existing : obj)
      (k : string) :
  lookup k (copy_fields blocklist candidate existing) =
  if copied blocklist k
  then match lookup k (rev candidate) with
       | Some v => Some v
       | None => lookup k existing
       end
  else lookup k existing.
Proof.
  unfold copy_fields.
  induction candidate as [ | [k' v'] c IH ] using rev_ind; simpl.
  - destruct (copied blocklist k); reflexivity.
  - rewrite fold_left_app, rev_app_distr. simpl.
    destruct (copied blocklist k') eqn:Ek'.
    + rewrite lookup_setattr. destruct (String.eqb k k') eqn:E.
      * apply String.eqb_eq in E. subst k'. rewrite Ek'. reflexivity.
      * exact IH.
    + destruct (String.eqb k k') eqn:E.
      * apply String.eqb_eq in E. subst k'. rewrite Ek'.
        rewrite IH, Ek'. reflexivity.
      * exact IH.
Qed.

Lemma parse_timestamp_total (L : Lib) (timestamp : value) :
  exists r, _parse_timestamp L timestamp = Ok r /\
            (r = VNone \/ exists d, r = VDatetime d /\ aware d).
Proof.
  assert (Hts : forall x, exists r,
             rtry (let? d := fromtimestamp_utc L x in Ok (VDatetime d))
                  (fun _ => Ok VNone) = Ok r /\
             (r = VNone \/ exists d, r = VDatetime d /\ aware d)).
  { intro x. unfold fromtimestamp_utc.
    destruct (utc_wall_of_timestamp L x) as [t|e]; simpl.
    - eexists; split; [reflexivity|]. right. eexists; split; [reflexivity|].
      unfold aware; simpl; discriminate.
    - eexists; split; [reflexivity|]. now left. }
  destruct timestamp as [ | b | n | x | s | l | kv | d ]; simpl;
    try (eexists; split; [reflexivity | now left]);
    try apply Hts.
  destruct (parse_date L s) as [p|e]; simpl.
  - eexists; split; [reflexivity|]. right. eexists; split; [reflexivity|].
    unfold aware. destruct (dt_tzinfo p) eqn:E; simpl; [rewrite E|]; discriminate.
  - unfold fromtimestamp_utc.
    destruct (float_of_str L s) as [u|e1]; simpl.
    + destruct (utc_wall_of_timestamp L u) as [t|e2]; simpl.
      * eexists; split; [reflexivity|]. right. eexists; split; [reflexivity|].
        unfold aware; simpl; discriminate.
      * destruct (is_ValueError e2); simpl; eexists; (split; [reflexivity | now left]).
    + destruct (is_ValueError e1); simpl; eexists; (split; [reflexivity | now left]).
Qed.


(* ===================================================================== *)
(** ** Reasoning about loader computations *)
(* ===================================================================== *)

Lemma bind_ok {A B} (m : M A) (k : A -> M B) (w w' : World) (b : B) :
  bind m k w = (Ok b, w') ->
  exists a w1, m w = (Ok a, w1) /\ k a w1 = (Ok b, w').
Proof.
  unfold bind. destruct (m w) as [[a | e] w1]; intro H.
  - exists a, w1. split; [ reflexivity | exact H ].
  - discriminate.
Qed.

Lemma bind_run {A B} (m : M A) (k : A -> M B) (w w1 : World) (a : A) :
  m w = (Ok a, w1) -> bind m k w = k a w1.
Proof. intro H. unfold bind. rewrite H. reflexivity. Qed.

Lemma bind_raise {A B} (m : M A) (k : A -> M B) (w w1 : World) (e : exn) :
  m w = (Raise e, w1) -> bind m k w = (Raise e, w1).
Proof. intro H. unfold bind. rewrite H. reflexivity. Qed.

Lemma keeps_ret {X A} (f : World -> X) (a : A) : keeps f (ret a).
Proof. intro w. reflexivity. Qed.

Lemma keeps_raise {X A} (f : World -> X) (e : exn) : keeps f (@raise A e).
Proof. intro w. reflexivity. Qed.

Lemma keeps_lift {X A} (f : World -> X) (r : result A) : keeps f (lift r).
Proof. intro w. reflexivity. Qed.

Lemma keeps_bind {X A B} (f : World -> X) (m : M A) (k : A -> M B) :
  keeps f m -> (forall a, keeps f (k a)) -> keeps f (bind m k).
Proof.
  intros Hm Hk w. unfold bind. specialize (Hm w).
  destruct (m w) as [[a | e] w1]; simpl in *.
  - rewrite (Hk a w1). exact Hm.
  - exact Hm.
Qed.

Lemma keeps_try {X A} (f : World -> X) (body : M A) (handler : exn -> M A) :
  keeps f body -> (forall e, keeps f (handler e)) -> keeps f (try_ body handler).
Proof.
  intros Hb Hh w. unfold try_. specialize (Hb w).
  destruct (body w) as [[a | e] w1]; simpl in *.
  - exact Hb.
  - rewrite (Hh e w1). exact Hb.
Qed.

Lemma keeps_for_each {X A} (f : World -> X) (xs : list A) (body : A -> M unit) :
  (forall x, keeps f (body x)) -> keeps f (for_each xs body).
Proof.
  intro Hb. induction xs as [ | x xs IH ]; simpl.
  - apply keeps_ret.
  - apply keeps_bind; [ apply Hb | intros _; exact IH ].
Qed.

Lemma keeps_add_all {X} (f : World -> X) (m : model) (os : list obj) :
  (forall o, keeps f (session_add m o)) -> keeps f (add_all m os).
Proof.
  intro Hadd. induction os as [ | o os IH ]; simpl.
  - apply keeps_ret.
  - apply keeps_bind; [ apply Hadd | intros _; exact IH ].
Qed.

Create HintDb keeps.

(** One structural step; primitives are closed by computation. *)
Ltac keeps_step :=
  match goal with
  | |- keeps _ (bind _ _) => apply keeps_bind; [ | intro ]
  | |- keeps _ (try_ _ _) => apply keeps_try; [ | intro ]
  | |- keeps _ (ret _) => apply keeps_ret
  | |- keeps _ (raise _) => apply keeps_raise
  | |- keeps _ (lift _) => apply keeps_lift
  | |- keeps _ (for_each _ _) => apply keeps_for_each; intro
  | |- keeps _ (add_all _ _) => apply keeps_add_all; intro
  | |- keeps _ (if ?b then _ else _) => destruct b
  | |- keeps _ (match ?x with Some _ => _ | None => _ end) => destruct x
  | |- keeps _ _ => solve [ auto with keeps ]
  | |- keeps _ _ => solve [ intro; reflexivity ]
  end.

Ltac keeps_auto := repeat keeps_step.

(** *** What never touches the committed state *)

Lemma update_existing_keeps_committed m col key bl cand ex :
  keeps committed (update_existing m col key bl cand ex).
Proof. unfold update_existing. keeps_auto. Qed.
#[export] Hint Resolve update_existing_keeps_committed : keeps.

Lemma upsert_instructor_keeps_committed i : keeps committed (upsert_instructor i).
Proof. unfold upsert_instructor. keeps_auto. Qed.

Lemma upsert_ride_keeps_committed r : keeps committed (upsert_ride r).
Proof. unfold upsert_ride. keeps_auto. Qed.

Lemma upsert_workout_keeps_committed o : keeps committed (upsert_workout o).
Proof. unfold upsert_workout. keeps_auto. Qed.
#[export] Hint Resolve upsert_instructor_keeps_committed
  upsert_ride_keeps_committed upsert_workout_keeps_committed : keeps.

Lemma sync_workout_achievements_keeps_committed wd :
  keeps committed (sync_workout_achievements wd).
Proof. unfold sync_workout_achievements. keeps_auto. Qed.

Lemma sync_workout_performance_data_keeps_committed L api wid :
  keeps committed (sync_workout_performance_data L api wid).
Proof.
  unfold sync_workout_performance_data, sync_performance_summary,
    sync_performance_metrics. keeps_auto.
Qed.
#[export] Hint Resolve sync_workout_achievements_keeps_committed
  sync_workout_performance_data_keeps_committed : keeps.

Lemma reconcile_records_keeps_committed L wd :
  keeps committed (reconcile_records L wd).
Proof. unfold reconcile_records. keeps_auto. Qed.
#[export] Hint Resolve reconcile_records_keeps_committed : keeps.


#[export] Hint Extern 1 (_ <> _) => discriminate : keeps.

(** *** What never touches a table other than its own *)

Lemma tbl_set_tbl_other (m m' : model) (t : list obj) (db : DB) :
  m <> m' -> tbl m (set_tbl m' t db) = tbl m db.
Proof. destruct m, m'; intro H; try reflexivity; congruence. Qed.

Lemma tbl_set_tbl_same (m : model) (t : list obj) (db : DB) :
  tbl m (set_tbl m t db) = t.
Proof. destruct m; reflexivity. Qed.

Lemma query_first_keeps_table m m' col v : keeps (session_table m) (query_first m' col v).
Proof. intro w. reflexivity. Qed.

Lemma write_back_keeps_table m m' col v o :
  m <> m' -> keeps (session_table m) (write_back m' col v o).
Proof. intros H w. unfold session_table. simpl. now apply tbl_set_tbl_other. Qed.

Lemma query_delete_keeps_table m m' col v :
  m <> m' -> keeps (session_table m) (query_delete m' col v).
Proof. intros H w. unfold session_table. simpl. now apply tbl_set_tbl_other. Qed.

Lemma session_add_keeps_table m m' o :
  m <> m' -> keeps (session_table m) (session_add m' o).
Proof. intros H w. unfold session_table. simpl. now apply tbl_set_tbl_other. Qed.
#[export] Hint Resolve query_first_keeps_table write_back_keeps_table
  query_delete_keeps_table session_add_keeps_table : keeps.

Lemma update_existing_keeps_table m m' col key bl cand ex :
  m <> m' -> keeps (session_table m) (update_existing m' col key bl cand ex).
Proof. intro H. unfold update_existing. keeps_auto. Qed.
#[export] Hint Resolve update_existing_keeps_table : keeps.

Lemma upsert_instructor_keeps_table m i :
  m <> Instructor -> keeps (session_table m) (upsert_instructor i).
Proof. intro H. unfold upsert_instructor. keeps_auto. Qed.

Lemma upsert_ride_keeps_table m r :
  m <> Ride -> keeps (session_table m) (upsert_ride r).
Proof. intro H. unfold upsert_ride. keeps_auto. Qed.

Lemma upsert_workout_keeps_table m o :
  m <> Workout -> keeps (session_table m) (upsert_workout o).
Proof. intro H. unfold upsert_workout. keeps_auto. Qed.
#[export] Hint Resolve upsert_instructor_keeps_table upsert_ride_keeps_table
  upsert_workout_keeps_table : keeps.

Lemma sync_workout_achievements_keeps_table m wd :
  m <> WorkoutAchievement -> keeps (session_table m) (sync_workout_achievements wd).
Proof. intro H. unfold sync_workout_achievements. keeps_auto. Qed.

Lemma sync_performance_summary_keeps_table L m wid perf :
  m <> WorkoutPerformanceSummary ->
  keeps (session_table m) (sync_performance_summary L wid perf).
Proof. intro H. unfold sync_performance_summary. keeps_auto. Qed.

Lemma sync_performance_metrics_keeps_table m wid perf :
  m <> WorkoutPerformanceMetric ->
  keeps (session_table m) (sync_performance_metrics wid perf).
Proof. intro H. unfold sync_performance_metrics. keeps_auto. Qed.
#[export] Hint Resolve sync_workout_achievements_keeps_table
  sync_performance_summary_keeps_table sync_performance_metrics_keeps_table : keeps.

Lemma sync_workout_performance_data_keeps_table L api m wid :
  m <> WorkoutPerformanceSummary -> m <> WorkoutPerformanceMetric ->
  keeps (session_table m) (sync_workout_performance_data L api wid).
Proof. intros H1 H2. unfold sync_workout_performance_data. keeps_auto. Qed.
#[export] Hint Resolve sync_workout_performance_data_keeps_table : keeps.

Lemma reconcile_records_keeps_users L wd :
  keeps (session_table User) (reconcile_records L wd).
Proof. unfold reconcile_records. keeps_auto. Qed.

Lemma commit_keeps_table accepts m : keeps (session_table m) (commit accepts).
Proof. intro w. unfold commit. destruct (accepts (current w)); reflexivity. Qed.
#[export] Hint Resolve reconcile_records_keeps_users commit_keeps_table : keeps.

Lemma reconcile_keeps_users L accepts api incl wd :
  keeps (session_table User) (reconcile L accepts api incl wd).
Proof. unfold reconcile. keeps_auto. Qed.

(** *** What never asks for a performance graph *)

Lemma update_existing_keeps_fetches m col key bl cand ex :
  keeps detail_fetches (update_existing m col key bl cand ex).
Proof. unfold update_existing. keeps_auto. Qed.
#[export] Hint Resolve update_existing_keeps_fetches : keeps.

Lemma upsert_instructor_keeps_fetches i : keeps detail_fetches (upsert_instructor i).
Proof. unfold upsert_instructor. keeps_auto. Qed.

Lemma upsert_ride_keeps_fetches r : keeps detail_fetches (upsert_ride r).
Proof. unfold upsert_ride. keeps_auto. Qed.

Lemma upsert_workout_keeps_fetches o : keeps detail_fetches (upsert_workout o).
Proof. unfold upsert_workout. keeps_auto. Qed.

Lemma sync_workout_achievements_keeps_fetches wd :
  keeps detail_fetches (sync_workout_achievements wd).
Proof. unfold sync_workout_achievements. keeps_auto. Qed.
#[export] Hint Resolve upsert_instructor_keeps_fetches upsert_ride_keeps_fetches
  upsert_workout_keeps_fetches sync_workout_achievements_keeps_fetches : keeps.

Lemma reconcile_records_keeps_fetches L wd :
  keeps detail_fetches (reconcile_records L wd).
Proof. unfold reconcile_records. keeps_auto. Qed.

Lemma sync_performance_summary_keeps_fetches L wid perf :
  keeps detail_fetches (sync_performance_summary L wid perf).
Proof. unfold sync_performance_summary. keeps_auto. Qed.

Lemma sync_performance_metrics_keeps_fetches wid perf :
  keeps detail_fetches (sync_performance_metrics wid perf).
Proof. unfold sync_performance_metrics. keeps_auto. Qed.

Lemma commit_keeps_fetches accepts : keeps detail_fetches (commit accepts).
Proof. intro w. unfold commit. destruct (accepts (current w)); reflexivity. Qed.
#[export] Hint Resolve reconcile_records_keeps_fetches
  sync_performance_summary_keeps_fetches sync_performance_metrics_keeps_fetches
  commit_keeps_fetches : keeps.

(** The performance sync asks for the graph exactly once. *)
Lemma sync_workout_performance_data_fetches L api wid w :
  detail_fetches (snd (sync_workout_performance_data L api wid w)) =
  S (detail_fetches w).
Proof.
  unfold sync_workout_performance_data, try_, bind at 1,
    api_get_workout_performance_graph.
  destruct (get_workout_performance_graph api wid) as [perf | e]; simpl.
  - set (w1 := log (ApiGetWorkoutPerformanceGraph wid) w).
    assert (K : keeps detail_fetches
                  (sync_performance_summary L wid perf ;;
                   sync_performance_metrics wid perf)) by keeps_auto.
    specialize (K w1).
    destruct ((sync_performance_summary L wid perf ;;
               sync_performance_metrics wid perf) w1) as [[[] | e] w2];
      simpl in *; rewrite K; reflexivity.
  - reflexivity.
Qed.


(* ===================================================================== *)
(** ** The transformer *)
(* ===================================================================== *)

(** Only the timestamp fields of a dictionary payload go through
    [_parse_timestamp], and that never raises. *)
Lemma parse_field_dict (L : Lib) (kv : list (string * value)) (k : string) :
  exists r, parse_field L (VDict kv) k = Ok r.
Proof.
  unfold parse_field. simpl.
  destruct (parse_timestamp_total L
              (match lookup k kv with Some v => v | None => VNone end))
    as (r & Hr & _).
  exists r. exact Hr.
Qed.

(** What a workout record holds of the payload it was built from. *)
Lemma transform_workout_data_attrs (L : Lib) (workout_data : value) (workout : obj) :
  transform_workout_data L workout_data = Ok workout ->
  subscript workout_data "id" = Ok (getattr workout "id") /\
  (forall k, k = "status" \/ k = "has_pedaling_metrics" ->
     lookup k workout = lookup k (rev workout)) /\
  dict_get workout_data "status" (VStr "") = Ok (getattr workout "status") /\
  lookup "status" workout = Some (getattr workout "status") /\
  dict_get workout_data "has_pedaling_metrics" (VBool false)
    = Ok (getattr workout "has_pedaling_metrics") /\
  lookup "has_pedaling_metrics" workout
    = Some (getattr workout "has_pedaling_metrics").
Proof.
  destruct workout_data as [ | | | | | | kv | ]; try discriminate.
  unfold transform_workout_data, new_instance. simpl.
  destruct (lookup "id" kv) as [ i | ]; simpl; [ | discriminate ].
  destruct (workout_ride_id (VDict kv)) as [ rid | ]; simpl; [ | discriminate ].
  destruct (parse_field L (VDict kv) "start_time"); simpl; [ | discriminate ].
  destruct (parse_field L (VDict kv) "end_time"); simpl; [ | discriminate ].
  destruct (parse_field L (VDict kv) "created_at"); simpl; [ | discriminate ].
  destruct (parse_field L (VDict kv) "device_time_created_at"); simpl;
    [ | discriminate ].
  intro H. injection H as <-.
  split; [ reflexivity | ].
  split; [ intros k [-> | ->]; reflexivity | ].
  split; [ reflexivity | ].
  split; [ reflexivity | ].
  split; reflexivity.
Qed.

(** The object [upsert_workout] hands back carries the candidate's value of
    every attribute the update loop copies. *)
Lemma upsert_workout_attr (candidate o : obj) (is_new : bool) (w w' : World)
      (k : string) (v : value) :
  upsert_workout candidate w = (Ok (o, is_new), w') ->
  copied ["id"; "created_at"] k = true -> k <> "updated_at" ->
  lookup k candidate = Some v -> lookup k (rev candidate) = Some v ->
  getattr o k = v.
Proof.
  intros H Hc Hk Hl Hr. unfold upsert_workout in H.
  apply bind_ok in H. destruct H as (ex & w1 & _ & H).
  destruct ex as [ ex | ].
  - apply bind_ok in H. destruct H as (o1 & w2 & H1 & H2).
    injection H2 as <- _ _.
    unfold update_existing in H1.
    apply bind_ok in H1. destruct H1 as (t & w3 & _ & H1).
    apply bind_ok in H1. destruct H1 as (u & w4 & _ & H1).
    injection H1 as <- _.
    unfold getattr. rewrite lookup_setattr.
    destruct (String.eqb k "updated_at") eqn:E.
    + apply String.eqb_eq in E. contradiction.
    + rewrite lookup_copy_fields, Hc, Hr. reflexivity.
  - apply bind_ok in H. destruct H as (o1 & w2 & H1 & H2).
    injection H2 as <- _ _.
    unfold session_add in H1. injection H1 as <- _.
    unfold getattr. now rewrite (lookup_apply_defaults _ _ _ _ _ Hl).
Qed.

(** The record [reconcile_records] returns has the payload's status and
    pedaling flag. *)
Lemma reconcile_records_workout (L : Lib) (workout_data : value) (workout : obj)
      (w w1 : World) :
  reconcile_records L workout_data w = (Ok workout, w1) ->
  dict_get workout_data "status" (VStr "") = Ok (getattr workout "status") /\
  dict_get workout_data "has_pedaling_metrics" (VBool false)
    = Ok (getattr workout "has_pedaling_metrics").
Proof.
  intro H. unfold reconcile_records in H.
  apply bind_ok in H. destruct H as (c & w2 & Hc & H).
  unfold lift in Hc. injection Hc as Hc _.
  apply bind_ok in H. destruct H as (u1 & w3 & _ & H).
  apply bind_ok in H. destruct H as (u2 & w4 & _ & H).
  apply bind_ok in H. destruct H as ([o is_new] & w5 & Hu & H).
  apply bind_ok in H. destruct H as (u3 & w6 & _ & H).
  apply bind_ok in H. destruct H as (u4 & w7 & _ & H).
  injection H as <- _. simpl.
  assert (Ht : transform_workout_data L workout_data = Ok (snd c)).
  { unfold extract_workout_components in Hc.
    destruct (dict_get workout_data "ride" VNone) as [ rd | ]; simpl in Hc;
      [ | discriminate ].
    match type of Hc with
    | rbind ?x _ = _ => destruct x as [ ir | ]; simpl in Hc; [ | discriminate ]
    end.
    destruct (transform_workout_data L workout_data) as [ wk | ]; simpl in Hc;
      [ | discriminate ].
    injection Hc as <-. reflexivity. }
  apply transform_workout_data_attrs in Ht.
  destruct Ht as (_ & Hrev & Hs1 & Hs2 & Hp1 & Hp2).
  rewrite Hs1, Hp1. split; f_equal; symmetry.
  - eapply upsert_workout_attr; eauto; [ discriminate | ].
    rewrite <- Hrev; auto.
  - eapply upsert_workout_attr; eauto; [ discriminate | ].
    rewrite <- Hrev; auto.
Qed.


(* ===================================================================== *)
(** ** Claims about the transformer *)
(* ===================================================================== *)

(** C8. Whenever [extract_workout_components] returns, an instructor comes
    with a ride: the instructor record is built from the instructor object
    found inside the payload's (truthy) ride object, and the third component
    is the workout record of the payload, carrying the payload's id.  A
    dictionary payload without an ["id"] makes the extraction raise. *)
Theorem extract_workout_components_nesting (L : Lib) (workout_data : value) :
  (forall instructor ride workout,
     extract_workout_components L workout_data = Ok (instructor, ride, workout) ->
     (instructor <> None -> ride <> None) /\
     (forall i, instructor = Some i ->
        exists ride_data instructor_data,
          dict_get workout_data "ride" VNone = Ok ride_data /\
          truthy ride_data = true /\
          dict_get ride_data "instructor" VNone = Ok instructor_data /\
          transform_instructor_data instructor_data = Ok i) /\
     transform_workout_data L workout_data = Ok workout /\
     subscript workout_data "id" = Ok (getattr workout "id")) /\
  (forall kv, workout_data = VDict kv -> lookup "id" kv = None ->
     exists e, extract_workout_components L workout_data = Raise e).
Proof.
  split.
  - intros instructor ride workout H.
    unfold extract_workout_components in H.
    destruct (dict_get workout_data "ride" VNone) as [ ride_data | ] eqn:Eride;
      simpl in H; [ | discriminate ].
    destruct (truthy ride_data) eqn:Etr.
    + destruct (transform_ride_data L ride_data) as [ rd | ]; simpl in H;
        [ | discriminate ].
      destruct (dict_get ride_data "instructor" VNone) as [ idata | ] eqn:Ei;
        simpl in H; [ | discriminate ].
      destruct (truthy idata).
      * destruct (transform_instructor_data idata) as [ ins | ] eqn:Et;
          simpl in H; [ | discriminate ].
        destruct (transform_workout_data L workout_data) as [ wk | ] eqn:Ew;
          simpl in H; [ | discriminate ].
        injection H as <- <- <-.
        repeat split.
        -- discriminate.
        -- intros i Hi. injection Hi as <-. exists ride_data, idata. auto.
        -- now apply transform_workout_data_attrs in Ew.
      * destruct (transform_workout_data L workout_data) as [ wk | ] eqn:Ew;
          simpl in H; [ | discriminate ].
        injection H as <- <- <-.
        repeat split.
        -- discriminate.
        -- discriminate.
        -- now apply transform_workout_data_attrs in Ew.
    + simpl in H.
      destruct (transform_workout_data L workout_data) as [ wk | ] eqn:Ew;
        simpl in H; [ | discriminate ].
      injection H as <- <- <-.
      repeat split.
      * intro Hn. now contradiction Hn.
      * discriminate.
      * now apply transform_workout_data_attrs in Ew.
  - intros kv -> Hid.
    assert (Hw : transform_workout_data L (VDict kv) = Raise KeyError).
    { unfold transform_workout_data, new_instance. simpl. rewrite Hid. reflexivity. }
    unfold extract_workout_components. simpl.
    match goal with
    | |- exists e, rbind ?x _ = _ => destruct x as [ ir | e ]; simpl
    end.
    + rewrite Hw. simpl. eexists; reflexivity.
    + eexists; reflexivity.
Qed.

Lemma extract_workout_components_nesting_witness :
  let payload :=
    VDict [("id", VStr "w1");
           ("ride", VDict [("id", VStr "r1");
                           ("instructor", VDict [("id", VStr "i1")])])] in
  (exists i r w,
     extract_workout_components sample_lib payload = Ok (Some i, Some r, w) /\
     subscript payload "id" = Ok (getattr w "id")) /\
  (exists e, extract_workout_components sample_lib workout_without_id = Raise e).
Proof.
  intro payload.
  destruct (extract_workout_components_nesting sample_lib payload) as [H _].
  destruct (extract_workout_components_nesting sample_lib workout_without_id)
    as [_ H'].
  split.
  - destruct (extract_workout_components sample_lib payload)
      as [ [[[i | ] [r | ]] w] | ] eqn:E; try (vm_compute in E; discriminate).
    exists i, r, w. split; [ reflexivity | ].
    exact (proj2 (proj2 (proj2 (H _ _ _ eq_refl)))).
  - exact (H' _ eq_refl eq_refl).
Defined.

(** C9. [_parse_timestamp] is total: on every value it returns, without
    raising, either [None] or a timezone-aware datetime. *)
Theorem parse_timestamp_never_raises (L : Lib) (timestamp : value) :
  exists r, _parse_timestamp L timestamp = Ok r /\
            (r = VNone \/ exists d, r = VDatetime d /\ aware d).
Proof. apply parse_timestamp_total. Qed.

(* ===================================================================== *)
(** ** Claims about single loader operations *)
(* ===================================================================== *)

(** C10. When the payload has no ["id"] or a falsy one, or has no
    ["achievement_templates"] or an empty list, [sync_workout_achievements]
    returns and leaves the world as it found it: nothing is asked of the
    session, no achievement row is deleted and none is added. *)
Theorem sync_workout_achievements_noop (kv : list (string * value)) (w : World) :
  lookup "id" kv = None \/
  (exists v, lookup "id" kv = Some v /\ truthy v = false) \/
  lookup "achievement_templates" kv = None \/
  lookup "achievement_templates" kv = Some (VList []) ->
  sync_workout_achievements (VDict kv) w = (Ok tt, w).
Proof.
  intro H. unfold sync_workout_achievements, bind, lift. simpl.
  destruct H as [ H | [ (v & H & Hv) | [ H | H ] ] ].
  - rewrite H. reflexivity.
  - rewrite H, Hv. reflexivity.
  - rewrite H.
    destruct (truthy match lookup "id" kv with Some v => v | None => VNone end);
      reflexivity.
  - rewrite H.
    destruct (truthy match lookup "id" kv with Some v => v | None => VNone end);
      reflexivity.
Qed.

Lemma sync_workout_achievements_noop_witness :
  let w := snd (session_add WorkoutAchievement
                  [("workout_id", VStr "w1"); ("achievement_id", VStr "a1");
                   ("name", VStr "first ride")] empty_World) in
  sync_workout_achievements
    (VDict [("id", VStr "w1"); ("achievement_templates", VList [])]) w = (Ok tt, w)
  /\ List.length (workout_achievements (current w)) = 1.
Proof.
  intro w. split.
  - apply sync_workout_achievements_noop.
    right. right. right. reflexivity.
  - reflexivity.
Defined.


(** How many graph requests one reconciliation adds. *)
Lemma reconcile_fetches (L : Lib) (store_accepts : DB -> bool) (api : Api)
      (include_performance : bool) (workout_data : value) (w : World) :
  detail_fetches
    (snd (reconcile L store_accepts api include_performance workout_data w)) =
  match reconcile_records L workout_data w with
  | (Ok workout, _) =>
      if detail_gate include_performance workout
      then S (detail_fetches w) else detail_fetches w
  | (Raise _, _) => detail_fetches w
  end.
Proof.
  assert (Hrec := reconcile_records_keeps_fetches L workout_data w).
  unfold reconcile. unfold bind at 1.
  destruct (reconcile_records L workout_data w) as [[workout | e] w1];
    simpl in Hrec; [ | exact Hrec ].
  unfold bind.
  destruct (detail_gate include_performance workout).
  - pose proof (sync_workout_performance_data_fetches L api
                  (getattr workout "id") w1) as Hf.
    destruct (sync_workout_performance_data L api (getattr workout "id") w1)
      as [[[] | e] w2]; simpl in Hf |- *.
    + rewrite commit_keeps_fetches. congruence.
    + congruence.
  - simpl. rewrite commit_keeps_fetches. exact Hrec.
Qed.

(** C7. While one workout is reconciled, the performance graph is requested
    only if [include_performance] is set, the payload's status is
    ["COMPLETE"] and its [has_pedaling_metrics] is truthy; it is requested
    (once) whenever these three hold and the steps before the gate
    (extraction, upserts, achievements) did not raise.  A payload whose
    [has_pedaling_metrics] is [False], or absent, never causes a request. *)
Theorem detail_sync_gating (L : Lib) (store_accepts : DB -> bool) (api : Api)
        (include_performance : bool) (workout_data : value) (w : World) :
  let w' := snd (reconcile L store_accepts api include_performance workout_data w) in
  let gate :=
    include_performance = true /\
    dict_get workout_data "status" (VStr "") = Ok (VStr "COMPLETE") /\
    exists flag,
      dict_get workout_data "has_pedaling_metrics" (VBool false) = Ok flag /\
      truthy flag = true in
  (detail_fetches w' <> detail_fetches w -> gate) /\
  (forall workout w1,
     reconcile_records L workout_data w = (Ok workout, w1) ->
     gate -> detail_fetches w' = S (detail_fetches w)) /\
  (dict_get workout_data "has_pedaling_metrics" (VBool false) = Ok (VBool false) ->
   detail_fetches w' = detail_fetches w).
Proof.
  intros w' gate.
  pose proof (reconcile_fetches L store_accepts api include_performance
                workout_data w) as Hw'.
  fold w' in Hw'.
  assert (Hattr := reconcile_records_workout L workout_data).
  destruct (reconcile_records L workout_data w) as [[workout | e] w1] eqn:Erec.
  - destruct (Hattr workout w w1 Erec) as [Hs Hp]. clear Hattr.
    assert (Hgate : detail_gate include_performance workout = true <-> gate).
    { unfold detail_gate, gate. rewrite Hs, Hp. split.
      - intro H. apply andb_prop in H. destruct H as [H H3].
        apply andb_prop in H. destruct H as [H1 H2].
        repeat split; [ exact H1 | | eexists; split; [ reflexivity | exact H3 ] ].
        destruct (getattr workout "status"); try discriminate.
        simpl in H2. apply String.eqb_eq in H2. now subst.
      - intros (H1 & H2 & flag & H3 & H4).
        injection H2 as ->. injection H3 as ->.
        rewrite H1, H4. reflexivity. }
    split; [ | split ].
    + intro Hne. apply Hgate.
      destruct (detail_gate include_performance workout);
        [ reflexivity | congruence ].
    + intros workout' w1' Heq Hg. apply Hgate in Hg. now rewrite Hw', Hg.
    + intro Hfalse. rewrite Hw'.
      destruct (detail_gate include_performance workout) eqn:Eg;
        [ | reflexivity ].
      destruct (proj1 Hgate eq_refl) as (_ & _ & flag & Hflag & Ht).
      rewrite Hfalse in Hflag. injection Hflag as <-. discriminate.
  - split; [ | split ].
    + intro Hne. congruence.
    + intros workout w1' Heq. discriminate.
    + intros _. exact Hw'.
Qed.

Lemma detail_sync_gating_witness :
  let api := sample_api (sample_user "rider" 1000) (listing []) no_graph in
  detail_fetches
    (snd (reconcile sample_lib schema_accepts api true (sample_workout "w1")
            empty_World)) = 1
  /\ detail_fetches
       (snd (reconcile sample_lib schema_accepts api true
               (VDict [("id", VStr "w2"); ("status", VStr "COMPLETE");
                       ("has_pedaling_metrics", VBool false)])
               empty_World)) = 0.
Proof.
  intro api. split.
  - destruct (detail_sync_gating sample_lib schema_accepts api true
                (sample_workout "w1") empty_World) as (_ & H & _).
    eapply H.
    + vm_compute. reflexivity.
    + split; [ reflexivity | ]. split; [ reflexivity | ].
      exists (VBool true). split; reflexivity.
  - destruct (detail_sync_gating sample_lib schema_accepts api true
                (VDict [("id", VStr "w2"); ("status", VStr "COMPLETE");
                        ("has_pedaling_metrics", VBool false)])
                empty_World) as (_ & _ & H).
    exact (H eq_refl).
Defined.


(* ===================================================================== *)
(** ** Transactions *)
(* ===================================================================== *)

Lemma commit_outcome (store_accepts : DB -> bool) (w : World) :
  match commit store_accepts w with
  | (Ok _, w') => committed w' = current w' /\ current w' = current w
                  /\ store_accepts (current w) = true
  | (Raise _, w') => committed w' = committed w
  end.
Proof.
  unfold commit. destruct (store_accepts (current w)); simpl; auto.
Qed.

(** A reconciliation that returns has committed all the session held; one
    that raises has committed nothing. *)
Lemma reconcile_outcome (L : Lib) (store_accepts : DB -> bool) (api : Api)
      (include_performance : bool) (workout_data : value) (w : World) :
  match reconcile L store_accepts api include_performance workout_data w with
  | (Ok _, w') => committed w' = current w'
  | (Raise _, w') => committed w' = committed w
  end.
Proof.
  unfold reconcile. unfold bind at 1.
  pose proof (reconcile_records_keeps_committed L workout_data w) as H1.
  destruct (reconcile_records L workout_data w) as [[workout | e] w1];
    simpl in H1; [ | exact H1 ].
  unfold bind.
  assert (H2 : keeps committed
                 (if detail_gate include_performance workout
                  then sync_workout_performance_data L api (getattr workout "id")
                  else ret tt)) by keeps_auto.
  specialize (H2 w1).
  destruct ((if detail_gate include_performance workout
             then sync_workout_performance_data L api (getattr workout "id")
             else ret tt) w1) as [[[] | e] w2]; simpl in H2.
  - pose proof (commit_outcome store_accepts w2) as H3.
    destruct (commit store_accepts w2) as [[[] | e] w3].
    + apply H3.
    + congruence.
  - congruence.
Qed.





(* ===================================================================== *)
(** ** The run *)
(* ===================================================================== *)

(** [sync_workouts] never raises: its outer handler turns whatever escapes
    the listing or the loop into one more error. *)
Lemma sync_workouts_returns (L : Lib) (store_accepts : DB -> bool) (api : Api)
      (user_id : value) (limit : Z) (include_performance : bool) (w : World) :
  fst (sync_workouts L store_accepts api user_id limit include_performance w)
  = Ok (stats (snd (sync_workouts L store_accepts api user_id limit
                      include_performance w))).
Proof.
  unfold sync_workouts, bind, try_. simpl.
  destruct (list_and_sync L store_accepts api limit include_performance
              (with_stats zero_stats w)) as [[[] | e] w1]; reflexivity.
Qed.

(** A listing that raises is contained: one error, session rolled back. *)
Lemma sync_workouts_listing_raises (L : Lib) (store_accepts : DB -> bool)
      (api : Api) (user_id : value) (limit : Z) (include_performance : bool)
      (w : World) (e : exn) :
  get_user_workouts api limit "ride,ride.instructor" = Raise e ->
  let out := sync_workouts L store_accepts api user_id limit include_performance w in
  fst out = Ok (mk_Stats 0 0 0 1) /\
  current (snd out) = committed w /\ committed (snd out) = committed w.
Proof.
  intro H. unfold sync_workouts, list_and_sync, try_, bind, api_get_user_workouts.
  rewrite H. simpl. auto.
Qed.

Lemma create_sync_log_returns (user_id : value) (sync_type status : string)
      (st : Stats) (error_message : value) (w : World) :
  exists row,
    fst (create_sync_log user_id sync_type status st error_message w) = Ok row /\
    committed (snd (create_sync_log user_id sync_type status st error_message w))
      = committed w /\
    sync_logs (current (snd (create_sync_log user_id sync_type status st
                               error_message w)))
      = sync_logs (current w) ++ [row] /\
    getattr row "status" = VStr status /\
    getattr row "workouts_processed" = VInt (Z.of_nat (processed st)) /\
    getattr row "workouts_created" = VInt (Z.of_nat (created st)) /\
    getattr row "workouts_updated" = VInt (Z.of_nat (updated st)) /\
    getattr row "errors_count" = VInt (Z.of_nat (errors st)).
Proof.
  eexists. unfold create_sync_log, bind, now, lift, new_instance, session_add.
  simpl. repeat split.
Qed.

Lemma sync_user_data_keeps_committed L store_accepts api :
  keeps committed (sync_user_data L store_accepts api).
Proof. unfold sync_user_data. keeps_auto. Qed.

(** What a run does once the user is synchronised. *)
Lemma full_sync_after_user (L : Lib) (store_accepts : DB -> bool) (api : Api)
      (user_id : value) (max_workouts : Z) (include_performance : bool)
      (w w1 : World) (user : obj) :
  sync_user_data L store_accepts api w = (Ok user, w1) ->
  let target := if truthy user_id then user_id else getattr user "id" in
  let w2 := snd (sync_workouts L store_accepts api target max_workouts
                   include_performance w1) in
  let st := stats w2 in
  let logged := create_sync_log target "full" (status_of st) st VNone w2 in
  store_accepts (current (snd logged)) = true ->
  exists row,
    fst logged = Ok row /\
    fst (full_sync L store_accepts api user_id max_workouts include_performance w)
    = Ok (mk_SyncResult (status_of st) target st (getattr row "id")) /\
    committed (snd (full_sync L store_accepts api user_id max_workouts
                      include_performance w))
    = current (snd logged).
Proof.
  intros Hu target w2 st logged Hacc.
  destruct (create_sync_log_returns target "full" (status_of st) st VNone w2)
    as (row & Hrow & _).
  fold logged in Hrow.
  exists row. split; [ exact Hrow | ].
  pose proof (sync_workouts_returns L store_accepts api target max_workouts
                include_performance w1) as Hs.
  unfold full_sync, get_db_session, try_, bind. rewrite Hu.
  cbv beta zeta. fold target.
  destruct (sync_workouts L store_accepts api target max_workouts
              include_performance w1) as [r2 w2'] eqn:E2.
  simpl in Hs. subst r2. subst w2.
  unfold logged, status_of, st in *. clear logged st.
  change (snd (Ok (stats w2'), w2')) with w2' in *.
  match goal with
  | H : fst ?c = Ok row |- _ => destruct c as [r3 w3]
  end.
  cbn [fst snd] in Hrow, Hacc. subst r3.
  unfold commit, ret. rewrite Hacc. cbn [current]. rewrite Hacc.
  split; reflexivity.
Qed.


Lemma status_of_cases (st : Stats) :
  (status_of st = "success" <-> errors st = 0) /\
  (status_of st = "partial" <-> errors st > 0 /\ created st + updated st > 0) /\
  (status_of st = "error" <-> errors st > 0 /\ created st + updated st = 0).
Proof.
  unfold status_of.
  destruct (Nat.ltb_spec 0 (errors st)) as [He | He];
    [ destruct (Nat.ltb_spec 0 (created st + updated st)) as [Hc | Hc] | ];
    repeat split; intros; try discriminate; try lia.
Qed.

(** Whatever a run returns, its status is the one derived from its counters,
    and whatever it raises, it has rolled the session back. *)
Lemma full_sync_outcome (L : Lib) (store_accepts : DB -> bool) (api : Api)
      (user_id : value) (max_workouts : Z) (include_performance : bool)
      (w : World) :
  match full_sync L store_accepts api user_id max_workouts include_performance w
  with
  | (Ok res, w') => res_status res = status_of (res_stats res)
  | (Raise _, w') => current w' = committed w'
  end.
Proof.
  unfold full_sync, get_db_session, try_, bind.
  destruct (sync_user_data L store_accepts api w) as [[user | e] w1];
    [ | reflexivity ].
  cbv beta zeta.
  destruct (sync_workouts L store_accepts api
              (if truthy user_id then user_id else getattr user "id")
              max_workouts include_performance w1) as [[st | e] w2];
    [ | reflexivity ].
  match goal with
  | |- context [create_sync_log ?a ?b ?c ?d ?e ?f] =>
      destruct (create_sync_log a b c d e f) as [[row | e'] w3]
  end; [ | reflexivity ].
  unfold commit, ret, rollback, raise.
  destruct (store_accepts (current w3)) eqn:Eacc; cbn [current].
  - rewrite Eacc. reflexivity.
  - reflexivity.
Qed.

(** An empty listing: nothing counted, nothing touched. *)
Lemma sync_workouts_empty (L : Lib) (store_accepts : DB -> bool) (api : Api)
      (user_id : value) (limit : Z) (include_performance : bool) (w : World)
      (payload : value) :
  get_user_workouts api limit "ride,ride.instructor" = Ok payload ->
  dict_get payload "data" (VList []) = Ok (VList []) ->
  let out := sync_workouts L store_accepts api user_id limit include_performance w in
  stats (snd out) = zero_stats /\
  current (snd out) = current w /\ committed (snd out) = committed w.
Proof.
  intros H1 H2.
  unfold sync_workouts, list_and_sync, try_, bind, api_get_user_workouts, lift.
  rewrite H1. cbn [fst snd]. rewrite H2. simpl. auto.
Qed.

(** C2. The status a completed run reports is [success] exactly when no
    error was counted, [partial] exactly when errors were counted and
    something was created or updated, [error] exactly when errors were
    counted and nothing was.  When the listing is empty (and the user was
    synchronised and the store takes the ledger row), the run returns
    [success] with four zero counters and appends one ledger row carrying
    them. *)
Theorem final_status_derivation (L : Lib) (store_accepts : DB -> bool) (api : Api)
        (user_id : value) (max_workouts : Z) (include_performance : bool)
        (w : World) :
  let run :=
    full_sync L store_accepts api user_id max_workouts include_performance w in
  (forall res, fst run = Ok res ->
     (res_status res = "success" <-> errors (res_stats res) = 0) /\
     (res_status res = "partial" <->
        errors (res_stats res) > 0 /\
        created (res_stats res) + updated (res_stats res) > 0) /\
     (res_status res = "error" <->
        errors (res_stats res) > 0 /\
        created (res_stats res) + updated (res_stats res) = 0)) /\
  (forall user w1 payload,
     sync_user_data L store_accepts api w = (Ok user, w1) ->
     get_user_workouts api max_workouts "ride,ride.instructor" = Ok payload ->
     dict_get payload "data" (VList []) = Ok (VList []) ->
     let target := if truthy user_id then user_id else getattr user "id" in
     let w2 := snd (sync_workouts L store_accepts api target max_workouts
                      include_performance w1) in
     store_accepts
       (current (snd (create_sync_log target "full" "success" zero_stats
                        VNone w2))) = true ->
     exists res row,
       fst run = Ok res /\
       res_status res = "success" /\
       res_stats res = mk_Stats 0 0 0 0 /\
       sync_logs (committed (snd run)) = sync_logs (current w1) ++ [row] /\
       getattr row "status" = VStr "success" /\
       getattr row "workouts_processed" = VInt 0 /\
       getattr row "workouts_created" = VInt 0 /\
       getattr row "workouts_updated" = VInt 0 /\
       getattr row "errors_count" = VInt 0).
Proof.
  intro run. split.
  - intros res Hres.
    pose proof (full_sync_outcome L store_accepts api user_id max_workouts
                  include_performance w) as Ho.
    fold run in Ho. destruct run as [[res' | e] w']; simpl in Hres;
      [ | discriminate ].
    injection Hres as ->. rewrite Ho. apply status_of_cases.
  - intros user w1 payload Hu Hlist Hdata target w2 Hacc.
    destruct (@sync_workouts_empty L store_accepts api target max_workouts
                include_performance w1 payload Hlist Hdata) as (Hst & Hcur & _).
    fold w2 in Hst, Hcur.
    pose proof (@full_sync_after_user L store_accepts api user_id max_workouts
                  include_performance w w1 user Hu) as Hrun.
    cbv zeta in Hrun. fold target in Hrun. fold w2 in Hrun.
    rewrite Hst in Hrun.
    change (status_of zero_stats) with "success" in Hrun.
    destruct (Hrun Hacc) as (row & Hrow & Hres & Hcom).
    destruct (create_sync_log_returns target "full" "success" zero_stats VNone w2)
      as (row' & Hrow' & _ & Hlogs & Hs & Hp & Hc & Hup & He).
    rewrite Hrow in Hrow'. injection Hrow' as <-.
    exists (mk_SyncResult "success" target zero_stats (getattr row "id")), row.
    fold run in Hres, Hcom.
    repeat split; try assumption.
    rewrite Hcom, Hlogs, Hcur. reflexivity.
Qed.

Lemma final_status_derivation_witness :
  let api := sample_api (sample_user "rider" 1000) (listing []) no_graph in
  let run := full_sync sample_lib schema_accepts api VNone 100 true empty_World in
  (exists res, fst run = Ok res /\ res_status res = "success"
               /\ res_stats res = mk_Stats 0 0 0 0)
  /\ List.length (sync_logs (committed (snd run))) = 1.
Proof.
  intros api run.
  destruct (final_status_derivation sample_lib schema_accepts api VNone 100 true
              empty_World) as [_ H].
  destruct (sync_user_data sample_lib schema_accepts api empty_World)
    as [[user | e] w1] eqn:Eu; [ | vm_compute in Eu; discriminate ].
  specialize (H user w1 (VDict [("data", VList [])]) eq_refl eq_refl eq_refl).
  assert (Hw1 : (Ok user, w1)
                = sync_user_data sample_lib schema_accepts api empty_World)
    by (symmetry; exact Eu).
  vm_compute in Hw1. injection Hw1 as -> ->.
  destruct (H eq_refl) as (res & row & H1 & H2 & H3 & H4 & _).
  split.
  - exists res. auto.
  - subst run. rewrite H4. reflexivity.
Defined.


(** A run whose user synchronisation raises re-raises that exception. *)
Lemma full_sync_user_failure (L : Lib) (store_accepts : DB -> bool) (api : Api)
      (user_id : value) (max_workouts : Z) (include_performance : bool)
      (w w1 : World) (e : exn) :
  sync_user_data L store_accepts api w = (Raise e, w1) ->
  let run :=
    full_sync L store_accepts api user_id max_workouts include_performance w in
  fst run = Raise e /\
  current (snd run) = committed w /\ committed (snd run) = committed w.
Proof.
  intro Hu.
  pose proof (sync_user_data_keeps_committed L store_accepts api w) as Hk.
  rewrite Hu in Hk. simpl in Hk.
  unfold full_sync, get_db_session, try_, bind. rewrite Hu. simpl.
  rewrite Hk. auto.
Qed.

(** A run whose ledger row the store rejects raises [IntegrityError]. *)
Lemma full_sync_ledger_rejected (L : Lib) (store_accepts : DB -> bool) (api : Api)
      (user_id : value) (max_workouts : Z) (include_performance : bool)
      (w w1 : World) (user : obj) :
  sync_user_data L store_accepts api w = (Ok user, w1) ->
  let target := if truthy user_id then user_id else getattr user "id" in
  let w2 := snd (sync_workouts L store_accepts api target max_workouts
                   include_performance w1) in
  let st := stats w2 in
  store_accepts
    (current (snd (create_sync_log target "full" (status_of st) st VNone w2)))
  = false ->
  fst (full_sync L store_accepts api user_id max_workouts include_performance w)
  = Raise IntegrityError.
Proof.
  intros Hu target w2 st Hacc.
  pose proof (sync_workouts_returns L store_accepts api target max_workouts
                include_performance w1) as Hs.
  destruct (create_sync_log_returns target "full" (status_of st) st VNone w2)
    as (row & Hrow & _).
  unfold full_sync, get_db_session, try_, bind. rewrite Hu.
  cbv beta zeta. fold target.
  destruct (sync_workouts L store_accepts api target max_workouts
              include_performance w1) as [r2 w2'] eqn:E2.
  simpl in Hs. subst r2. subst w2.
  unfold status_of, st in *. clear st.
  change (snd (Ok (stats w2'), w2')) with w2' in *.
  match goal with
  | H : fst ?c = Ok row |- _ => destruct c as [r3 w3]
  end.
  cbn [fst snd] in Hrow, Hacc. subst r3.
  unfold commit. rewrite Hacc. reflexivity.
Qed.

(** C3 (as amended). An exception raised by the user synchronisation aborts
    the run: it is re-raised and the session is rolled back; so is the
    [IntegrityError] of a ledger row the store rejects, and every exception
    that leaves [full_sync] leaves the session rolled back.  An exception
    raised by the initial listing does not leave [sync_workouts]: the
    session is rolled back, one error is counted, and the run goes on to
    its ledger row and returns status [error]. *)
Theorem run_level_failures (L : Lib) (store_accepts : DB -> bool) (api : Api)
        (user_id : value) (max_workouts : Z) (include_performance : bool)
        (w : World) :
  let run :=
    full_sync L store_accepts api user_id max_workouts include_performance w in
  (forall e w1,
     sync_user_data L store_accepts api w = (Raise e, w1) ->
     fst run = Raise e /\
     current (snd run) = committed w /\ committed (snd run) = committed w) /\
  (forall e, fst run = Raise e -> current (snd run) = committed (snd run)) /\
  (forall e user w1,
     sync_user_data L store_accepts api w = (Ok user, w1) ->
     get_user_workouts api max_workouts "ride,ride.instructor" = Raise e ->
     let target := if truthy user_id then user_id else getattr user "id" in
     let listed := sync_workouts L store_accepts api target max_workouts
                                 include_performance w1 in
     let ledger := create_sync_log target "full" "error" (mk_Stats 0 0 0 1)
                                   VNone (snd listed) in
     fst listed = Ok (mk_Stats 0 0 0 1) /\
     current (snd listed) = committed w /\
     (store_accepts (current (snd ledger)) = true ->
        exists id,
          fst run = Ok (mk_SyncResult "error" target (mk_Stats 0 0 0 1) id)) /\
     (store_accepts (current (snd ledger)) = false ->
        fst run = Raise IntegrityError)).
Proof.
  intro run. split; [ | split ].
  - intros e w1 Hu.
    exact (@full_sync_user_failure L store_accepts api user_id max_workouts
             include_performance w w1 e Hu).
  - intros e He.
    pose proof (full_sync_outcome L store_accepts api user_id max_workouts
                  include_performance w) as Ho.
    fold run in Ho. destruct run as [[res | e'] w']; simpl in *;
      [ discriminate | exact Ho ].
  - intros e user w1 Hu Hlist target listed ledger.
    destruct (@sync_workouts_listing_raises L store_accepts api target
                max_workouts include_performance w1 e Hlist)
      as (Hst & Hcur & _).
    fold listed in Hst, Hcur.
    pose proof (sync_user_data_keeps_committed L store_accepts api w) as Hk.
    rewrite Hu in Hk. simpl in Hk.
    pose proof (sync_workouts_returns L store_accepts api target max_workouts
                  include_performance w1) as Hret.
    fold listed in Hret. rewrite Hst in Hret. injection Hret as Hstats.
    split; [ exact Hst | ]. split; [ congruence | ]. split.
    + intro Hacc.
      pose proof (@full_sync_after_user L store_accepts api user_id max_workouts
                    include_performance w w1 user Hu) as Hrun.
      cbv zeta in Hrun. fold target in Hrun. fold listed in Hrun.
      rewrite <- Hstats in Hrun.
      change (status_of (mk_Stats 0 0 0 1)) with "error" in Hrun.
      destruct (Hrun Hacc) as (row & _ & Hres & _).
      exists (getattr row "id"). exact Hres.
    + intro Hacc.
      pose proof (@full_sync_ledger_rejected L store_accepts api user_id
                    max_workouts include_performance w w1 user Hu) as Hrun.
      cbv zeta in Hrun. fold target in Hrun. fold listed in Hrun.
      rewrite <- Hstats in Hrun.
      change (status_of (mk_Stats 0 0 0 1)) with "error" in Hrun.
      exact (Hrun Hacc).
Qed.

Lemma run_level_failures_witness :
  let api := sample_api (sample_user "rider" 1000) (Raise PelotonAPIError)
                        no_graph in
  exists id,
    fst (full_sync sample_lib schema_accepts api VNone 100 true first_run_world)
    = Ok (mk_SyncResult "error" (VStr "u1") (mk_Stats 0 0 0 1) id).
Proof.
  intro api.
  destruct (run_level_failures sample_lib schema_accepts api VNone 100 true
              first_run_world) as (_ & _ & H).
  destruct (sync_user_data sample_lib schema_accepts api first_run_world)
    as [[user | e] w1] eqn:Eu; [ | vm_compute in Eu; discriminate ].
  specialize (H PelotonAPIError user w1 eq_refl eq_refl).
  assert (Hw1 : (Ok user, w1)
                = sync_user_data sample_lib schema_accepts api first_run_world)
    by (symmetry; exact Eu).
  vm_compute in Hw1. injection Hw1 as -> ->.
  destruct H as (_ & _ & H & _).
  exact (H eq_refl).
Defined.

(** C3 (as stated) fails: with the remote source unreachable during the
    initial listing, the run does not re-raise; it counts one error and
    returns status [error]. *)
Lemma listing_failure_is_not_reraised :
  let api := sample_api (sample_user "rider" 1000) (Raise PelotonAPIError)
                        no_graph in
  get_user_workouts api 100 "ride,ride.instructor" = Raise PelotonAPIError /\
  fst (full_sync sample_lib schema_accepts api VNone 100 true first_run_world)
  = Ok (mk_SyncResult "error" (VStr "u1") (mk_Stats 0 0 0 1) (VInt 2)).
Proof. vm_compute. split; reflexivity. Qed.


(* ===================================================================== *)
(** ** Child rows: delete, then insert *)
(* ===================================================================== *)

Lemma filter_matches_none (col : string) (v : value) (t : list obj) :
  filter (matches col v) (filter (fun r => negb (matches col v r)) t) = [].
Proof.
  induction t as [ | r t IH ]; simpl; [ reflexivity | ].
  destruct (matches col v r) eqn:E; simpl; [ exact IH | ].
  rewrite E. exact IH.
Qed.

Lemma filter_matches_all (col : string) (v : value) (rows : list obj) :
  Forall (fun r => getattr r col = v) rows ->
  filter (matches col v) rows = rows.
Proof.
  induction 1 as [ | r rows Hr _ IH ]; simpl; [ reflexivity | ].
  unfold matches at 1. rewrite Hr, value_eqb_refl, IH. reflexivity.
Qed.

(** [add_all] never raises and appends one row per object, each keeping
    the attributes the object was built with. *)
Lemma add_all_spec (m : model) (os : list obj) (w : World) :
  exists rows,
    fst (add_all m os w) = Ok tt /\
    tbl m (current (snd (add_all m os w))) = tbl m (current w) ++ rows /\
    List.length rows = List.length os /\
    (forall m', m' <> m ->
       tbl m' (current (snd (add_all m os w))) = tbl m' (current w)) /\
    (forall k v, Forall (fun o => lookup k o = Some v) os ->
                 Forall (fun r => getattr r k = v) rows).
Proof.
  revert w. induction os as [ | o os IH ]; intro w.
  - exists []. simpl. rewrite app_nil_r. repeat split; auto.
  - simpl. unfold bind. simpl.
    match goal with
    | |- context [add_all m os ?w1] => destruct (IH w1) as (rows & H1 & H2 & H3 & H4 & H5)
    end.
    simpl in H2, H4.
    eexists (_ :: rows). split; [ exact H1 | ]. split; [ | split; [ | split ] ].
    + rewrite H2, tbl_set_tbl_same, <- app_assoc. reflexivity.
    + simpl. now rewrite H3.
    + intros m' Hm'. rewrite (H4 m' Hm'). now apply tbl_set_tbl_other.
    + intros k v Hall. inversion Hall as [ | ? ? Ho Hos ]; subst.
      constructor.
      * unfold getattr. now rewrite (lookup_apply_defaults _ _ _ _ _ Ho).
      * now apply H5.
Qed.

(** Objects are turned into metric records one by one, none is dropped. *)
Lemma transform_metrics_of_dicts (workout_id : value) (ms : list value) :
  forallb is_dict ms = true ->
  exists rows,
    rmap (transform_metric workout_id) ms = Ok rows /\
    List.length rows = List.length ms /\
    Forall (fun o => lookup "workout_id" o = Some workout_id) rows.
Proof.
  induction ms as [ | m ms IH ]; simpl; intro H.
  - exists []. auto.
  - apply andb_prop in H. destruct H as [Hm Hms].
    destruct (IH Hms) as (rows & Hr & Hl & Hf).
    destruct m; try discriminate.
    rewrite Hr. simpl. eexists. split; [ reflexivity | ].
    split; [ simpl; now rewrite Hl | ].
    constructor; [ reflexivity | exact Hf ].
Qed.

Lemma update_existing_returns m col key bl cand ex w :
  exists o, fst (update_existing m col key bl cand ex w) = Ok o.
Proof. eexists. reflexivity. Qed.

(** With summaries that are a list of objects, the summary step returns. *)
Lemma sync_performance_summary_returns (L : Lib) (workout_id perf sd : value)
      (w : World) :
  dict_get perf "summaries" (VList []) = Ok sd ->
  list_of_dicts sd = true ->
  fst (sync_performance_summary L workout_id perf w) = Ok tt.
Proof.
  intros Hsd Hld. unfold sync_performance_summary, bind, lift.
  rewrite Hsd. destruct sd as [ | | | | | l | | ]; try discriminate.
  simpl in Hld.
  destruct l as [ | s l ]; [ reflexivity | ].
  cbn [truthy index_last].
  assert (Hlast : is_dict (last (s :: l) VNone) = true).
  { assert (Hin : In (last (s :: l) VNone) (s :: l)).
    { clear. revert s. induction l as [ | x l IH ]; intro s.
      - left; reflexivity.
      - right. apply (IH x). }
    rewrite forallb_forall in Hld. now apply Hld. }
  destruct (last (s :: l) VNone) as [ | | | | | | d | ]; try discriminate.
  destruct d as [ | kv0 d ]; [ reflexivity | ].
  cbn [truthy].
  unfold transform_performance_summary_data, new_instance. cbn [kwargs rbind dict_get].
  destruct (parse_field_dict L (kv0 :: d) "instant") as (r & Hr). rewrite Hr.
  cbn [rbind query_first fst snd].
  match goal with
  | |- context [hd_error ?t] => destruct (hd_error t)
  end; reflexivity.
Qed.





(* ===================================================================== *)
(** ** Updates of existing rows *)
(* ===================================================================== *)

(** The branch taken when a row exists: it returns the row with every
    copied attribute of the candidate, the fresh [updated_at], and all other
    attributes as they were. *)
Lemma update_existing_attrs (m : model) (col : string) (key : value)
      (blocklist : list string) (candidate existing : obj) (w : World) :
  exists o,
    fst (update_existing m col key blocklist candidate existing w) = Ok o /\
    getattr o "updated_at" = VDatetime (mk_datetime (clock w) (Some utc)) /\
    (forall k, k <> "updated_at" -> copied blocklist k = false ->
               getattr o k = getattr existing k) /\
    (forall k v, k <> "updated_at" -> copied blocklist k = true ->
                 lookup k (rev candidate) = Some v -> getattr o k = v).
Proof.
  eexists. split; [ reflexivity | ]. unfold getattr.
  split; [ | split ].
  - rewrite lookup_setattr. reflexivity.
  - intros k Hk Hc. rewrite lookup_setattr.
    destruct (String.eqb k "updated_at") eqn:E;
      [ apply String.eqb_eq in E; contradiction | ].
    rewrite lookup_copy_fields, Hc. reflexivity.
  - intros k v Hk Hc Hl. rewrite lookup_setattr.
    destruct (String.eqb k "updated_at") eqn:E;
      [ apply String.eqb_eq in E; contradiction | ].
    rewrite lookup_copy_fields, Hc, Hl. reflexivity.
Qed.

(** C5, the code at the failing input.  The user [u1] is stored with the
    creation time 1000; the remote source then reports 5000 for the same
    user: the second run overwrites [created_at] of the stored user, since
    [sync_user_data] excludes only ["id"] from the copy.  The workout row
    re-synchronised by the same two runs keeps its [created_at], as
    [upsert_workout] excludes ["created_at"] too. *)
Theorem user_update_overwrites_created_at :
  let api t := sample_api (sample_user "rider" t) (listing [sample_workout "w1"])
                          no_graph in
  let run t w := snd (full_sync sample_lib schema_accepts (api t) VNone 100
                        true w) in
  let w1 := run 1000%Z empty_World in
  let w2 := run 5000%Z w1 in
  map (fun u => getattr u "created_at") (users (committed w1))
    = [VDatetime (mk_datetime 1000 (Some utc))] /\
  map (fun u => getattr u "created_at") (users (committed w2))
    = [VDatetime (mk_datetime 5000 (Some utc))] /\
  map (fun o => getattr o "created_at") (workouts (committed w2))
    = map (fun o => getattr o "created_at") (workouts (committed w1)) /\
  stats w2 = mk_Stats 1 0 1 0.
Proof. vm_compute. repeat split. Qed.

(** C1, the code at the failing input.  Of two payloads the second lacks
    the mandatory [start_time]; its commit is refused and rolled back, yet
    it was already counted as created: the run reports
    [processed=2, created=2, errors=1] with only the first workout stored.
    The same happens when the achievements of the second payload cannot be
    transformed. *)
Theorem failed_workout_is_counted_as_created :
  let run ws := full_sync sample_lib schema_accepts
                  (sample_api (sample_user "rider" 1000) (listing ws) no_graph)
                  VNone 100 true empty_World in
  let r1 := run [sample_workout "w1"; workout_without_start_time "w2"] in
  let r2 := run [sample_workout "w1"; workout_with_bad_achievement "w2"] in
  fst r1 = Ok (mk_SyncResult "partial" (VStr "u1") (mk_Stats 2 2 0 1) (VInt 1)) /\
  map (fun o => getattr o "id") (workouts (committed (snd r1))) = [VStr "w1"] /\
  fst r2 = Ok (mk_SyncResult "partial" (VStr "u1") (mk_Stats 2 2 0 1) (VInt 1)) /\
  map (fun o => getattr o "id") (workouts (committed (snd r2))) = [VStr "w1"].
Proof. vm_compute. repeat split. Qed.


(* ===================================================================== *)
(** ** Further properties of the transformer *)
(* ===================================================================== *)

(** X1. Nested lookups compose: with a default that is not a dictionary
    (such as the default [None]), looking up [keys1 ++ keys2] is looking up
    [keys2] in what the lookup of [keys1] gave. *)
Theorem safe_get_nested_app (data default : value) (keys1 keys2 : list string) :
  is_dict default = false ->
  _safe_get_nested data (keys1 ++ keys2) default =
  _safe_get_nested (_safe_get_nested data keys1 default) keys2 default.
Proof.
  intro Hd. revert data.
  assert (Hfail : _safe_get_nested default keys2 default = default).
  { destruct keys2 as [ | k ks ]; [ reflexivity | ].
    destruct default; try reflexivity. discriminate. }
  induction keys1 as [ | k ks IH ]; intro data; simpl; [ reflexivity | ].
  destruct data as [ | | | | | | kv | ]; try (symmetry; exact Hfail).
  destruct (lookup k kv) as [ v | ]; [ apply IH | symmetry; exact Hfail ].
Qed.

Lemma safe_get_nested_app_witness :
  let data := VDict [("ride", VDict [("instructor",
                                       VDict [("name", VStr "Ada")])])] in
  _safe_get_nested data (["ride"] ++ ["instructor"; "name"]) VNone = VStr "Ada" /\
  _safe_get_nested data (["ride"; "coach"] ++ ["name"]) VNone = VNone.
Proof.
  intro data. split.
  - rewrite (@safe_get_nested_app data VNone ["ride"] ["instructor"; "name"]
               eq_refl).
    reflexivity.
  - rewrite (@safe_get_nested_app data VNone ["ride"; "coach"] ["name"] eq_refl).
    reflexivity.
Defined.

(** X2. The records of users, instructors and rides are built exactly when
    the payload has an ["id"]: an object payload without it raises
    [KeyError], a payload that is not an object raises [TypeError], and
    otherwise the record carries the payload's id. *)
Theorem transform_needs_id (L : Lib) (payload : value) :
  let outcome (r : result obj) :=
    match payload with
    | VDict kv =>
        match lookup "id" kv with
        | Some i => exists o, r = Ok o /\ getattr o "id" = i
        | None => r = Raise KeyError
        end
    | _ => r = Raise TypeError
    end in
  outcome (transform_user_data L payload) /\
  outcome (transform_instructor_data payload) /\
  outcome (transform_ride_data L payload).
Proof.
  intro outcome. unfold outcome.
  destruct payload as [ | | | | | | kv | ]; try (repeat split; reflexivity).
  unfold transform_user_data, transform_instructor_data, transform_ride_data,
    new_instance.
  cbn [kwargs subscript dict_get rbind].
  destruct (lookup "id" kv) as [ i | ]; [ | repeat split; reflexivity ].
  cbn [rbind].
  destruct (parse_field_dict L kv "created_at") as (c & Hc).
  destruct (parse_field_dict L kv "original_air_time") as (a & Ha).
  destruct (parse_field_dict L kv "scheduled_start_time") as (s & Hs).
  rewrite Hc, Ha, Hs. cbn [rbind].
  split; [ | split ]; eexists; (split; [ reflexivity | reflexivity ]).
Qed.

(** X3. A list of metric samples is turned into one record per sample, in
    order, each carrying the workout id and the sample's offset (0 when the
    sample has none), provided every sample is an object; a sample that is
    not an object makes the whole transformation raise [AttributeError]. *)
Theorem transform_performance_metrics_data_list (workout_id : value)
        (ms : list value) :
  if forallb is_dict ms
  then exists rows,
         transform_performance_metrics_data workout_id (VList ms) = Ok rows /\
         List.length rows = List.length ms /\
         Forall (fun r => getattr r "workout_id" = workout_id) rows /\
         map (fun r => Ok (getattr r "seconds_since_pedaling_start")) rows =
         map (fun m => dict_get m "seconds_since_pedaling_start" (VInt 0)) ms
  else transform_performance_metrics_data workout_id (VList ms)
       = Raise AttributeError.
Proof.
  unfold transform_performance_metrics_data. cbn [py_iter rbind].
  induction ms as [ | m ms IH ]; simpl.
  - exists []. repeat split. constructor.
  - destruct m as [ | | | | | | kv | ]; simpl; try reflexivity.
    destruct (forallb is_dict ms).
    + destruct IH as (rows & Hr & Hl & Hw & Ho). rewrite Hr. simpl.
      eexists. split; [ reflexivity | ].
      split; [ simpl; now rewrite Hl | ].
      split; [ constructor; [ reflexivity | exact Hw ] | ].
      simpl. rewrite Ho. reflexivity.
    + rewrite IH. reflexivity.
Qed.

(** A ride record is built exactly from an object payload with an id. *)
Lemma transform_needs_id_ride (L : Lib) (payload : value) :
  (exists i o, subscript payload "id" = Ok i /\
               transform_ride_data L payload = Ok o /\ lookup "id" o = Some i) \/
  (exists e, transform_ride_data L payload = Raise e).
Proof.
  destruct payload as [ | | | | | | kv | ];
    try (right; eexists; reflexivity).
  unfold transform_ride_data, new_instance.
  cbn [kwargs subscript dict_get rbind].
  destruct (lookup "id" kv) as [ i | ]; [ | right; eexists; reflexivity ].
  cbn [rbind].
  destruct (parse_field_dict L kv "original_air_time") as (a & Ha).
  destruct (parse_field_dict L kv "scheduled_start_time") as (s & Hs).
  rewrite Ha, Hs. cbn [rbind].
  left. exists i. eexists. repeat split.
Qed.


(* ===================================================================== *)
(** ** Further properties of single loader operations *)
(* ===================================================================== *)

(** X4. The performance sync is contained: whatever the remote source
    answers, [sync_workout_performance_data] returns without raising, asks
    for the graph exactly once, commits nothing, and touches no table other
    than the summaries and the metrics; when the request itself fails, the
    session is left as it was. *)
Theorem sync_workout_performance_data_contained (L : Lib) (api : Api)
        (workout_id : value) (w : World) :
  let out := sync_workout_performance_data L api workout_id w in
  fst out = Ok tt /\
  detail_fetches (snd out) = S (detail_fetches w) /\
  committed (snd out) = committed w /\
  (forall m, m <> WorkoutPerformanceSummary -> m <> WorkoutPerformanceMetric ->
             tbl m (current (snd out)) = tbl m (current w)) /\
  (forall e, get_workout_performance_graph api workout_id = Raise e ->
             current (snd out) = current w).
Proof.
  intro out. split; [ | split; [ | split; [ | split ] ] ].
  - unfold out, sync_workout_performance_data, try_.
    match goal with
    | |- fst (let (r, w1) := ?b in _) = _ => destruct b as [[[] | e] w1]
    end; reflexivity.
  - apply sync_workout_performance_data_fetches.
  - apply sync_workout_performance_data_keeps_committed.
  - intros m H1 H2.
    exact (@sync_workout_performance_data_keeps_table L api m workout_id H1 H2 w).
  - intros e He.
    unfold out, sync_workout_performance_data, try_, bind,
      api_get_workout_performance_graph.
    rewrite He. reflexivity.
Qed.

Lemma hd_filter_some (p : obj -> bool) (t : list obj) (r : obj) :
  hd_error (filter p t) = Some r -> p r = true /\ existsb p t = true.
Proof.
  induction t as [ | x t IH ]; simpl; [ discriminate | ].
  destruct (p x) eqn:E; simpl.
  - intro H. injection H as <-. auto.
  - intro H. apply IH in H. exact H.
Qed.

Lemma hd_filter_none (p : obj -> bool) (t : list obj) :
  hd_error (filter p t) = None -> existsb p t = false.
Proof.
  induction t as [ | x t IH ]; simpl; [ reflexivity | ].
  destruct (p x) eqn:E; simpl; [ discriminate | exact IH ].
Qed.

Lemma replace_first_length (p : obj -> bool) (new : obj) (t : list obj) :
  List.length (replace_first p new t) = List.length t.
Proof.
  induction t as [ | x t IH ]; simpl; [ reflexivity | ].
  destruct (p x); simpl; [ reflexivity | now rewrite IH ].
Qed.

(** The row put in place of the first match is the first match afterwards. *)
Lemma replace_first_hd (p : obj -> bool) (new : obj) (t : list obj) :
  p new = true -> existsb p t = true ->
  hd_error (filter p (replace_first p new t)) = Some new.
Proof.
  intros Hn. induction t as [ | x t IH ]; simpl; [ discriminate | ].
  destruct (p x) eqn:E; simpl.
  - intros _. rewrite Hn. reflexivity.
  - intro H. rewrite E. apply IH. exact H.
Qed.

(** Where the updated row lands. *)
Lemma update_existing_table (m : model) (col : string) (key : value)
      (blocklist : list string) (candidate existing : obj) (w : World) (o : obj) :
  fst (update_existing m col key blocklist candidate existing w) = Ok o ->
  tbl m (current (snd (update_existing m col key blocklist candidate existing w)))
  = replace_first (matches col key) o (tbl m (current w)).
Proof.
  unfold update_existing, bind, now, write_back, ret. cbn [fst snd].
  intro H. injection H as <-.
  cbn [current with_current]. apply tbl_set_tbl_same.
Qed.

(** The shape shared by [upsert_instructor], [upsert_ride] and
    [upsert_workout]: look the row up by id, update it or add it. *)
Lemma upsert_shape (m : model) (candidate : obj) (i : value) (w : World) :
  lookup "id" candidate = Some i ->
  let t := tbl m (current w) in
  let out :=
    (existing <- query_first m "id" (getattr candidate "id") ;;
     match existing with
     | Some existing =>
         update_existing m "id" (getattr candidate "id") ["id"; "created_at"]
                         candidate existing
     | None => session_add m candidate
     end) w in
  let t' := tbl m (current (snd out)) in
  exists o,
    fst out = Ok o /\
    hd_error (filter (matches "id" i) t') = Some o /\
    match hd_error (filter (matches "id" i) t) with
    | Some existing =>
        List.length t' = List.length t /\
        getattr o "id" = getattr existing "id" /\
        getattr o "created_at" = getattr existing "created_at" /\
        getattr o "updated_at" = VDatetime (mk_datetime (clock w) (Some utc)) /\
        (forall k v, k <> "updated_at" -> copied ["id"; "created_at"] k = true ->
                     lookup k (rev candidate) = Some v -> getattr o k = v)
    | None =>
        t' = t ++ [o] /\
        (forall k v, lookup k candidate = Some v -> getattr o k = v)
    end.
Proof.
  intros Hid t out t'.
  assert (Hg : getattr candidate "id" = i) by (unfold getattr; now rewrite Hid).
  subst t' out. unfold bind, query_first. cbv beta. rewrite Hg.
  change (tbl m (current w)) with t.
  destruct (hd_error (filter (matches "id" i) t)) as [ ex | ] eqn:Ehd.
  - destruct (hd_filter_some _ _ Ehd) as [Hex Hany].
    cbv beta iota.
    set (w0 := log (SessionQuery m) w).
    destruct (update_existing_attrs m "id" i ["id"; "created_at"] candidate ex w0)
      as (o & Ho & Hup & Hkeep & Hcopy).
    pose proof (@update_existing_table m "id" i ["id"; "created_at"] candidate
                  ex w0 o Ho) as Htbl.
    change (tbl m (current w0)) with t in Htbl.
    destruct (update_existing m "id" i ["id"; "created_at"] candidate ex w0)
      as [r w2].
    cbn [fst snd] in *. subst r.
    exists o. split; [ reflexivity | ].
    assert (Hido : getattr o "id" = getattr ex "id")
      by (apply Hkeep; [ discriminate | reflexivity ]).
    assert (Hmo : matches "id" i o = true)
      by (unfold matches in *; now rewrite Hido).
    rewrite Htbl.
    split; [ now apply replace_first_hd | ].
    rewrite replace_first_length.
    split; [ reflexivity | ]. split; [ exact Hido | ].
    split; [ apply Hkeep; [ discriminate | reflexivity ] | ].
    split; [ exact Hup | exact Hcopy ].
  - apply hd_filter_none in Ehd.
    cbv beta iota.
    unfold session_add. cbn [fst snd current log]. rewrite tbl_set_tbl_same.
    change (tbl m (current w)) with t.
    eexists. split; [ reflexivity | ].
    assert (Hattr : forall k v, lookup k candidate = Some v ->
              getattr (apply_defaults m
                         (VDatetime (mk_datetime (clock w) (Some utc)))
                         (next_id w) candidate) k = v).
    { intros k v Hk. unfold getattr.
      now rewrite (lookup_apply_defaults _ _ _ _ _ Hk). }
    split; [ | split; [ reflexivity | exact Hattr ] ].
    rewrite filter_app.
    assert (Hnone : filter (matches "id" i) t = []).
    { clear - Ehd. induction t as [ | x t IH ]; simpl in *; [ reflexivity | ].
      apply orb_false_iff in Ehd. destruct Ehd as [E1 E2].
      rewrite E1. now apply IH. }
    rewrite Hnone. simpl. unfold matches at 1.
    rewrite (Hattr "id" i Hid), value_eqb_refl. reflexivity.
Qed.


(** [upsert_workout] is the shared shape plus the [is_new] flag. *)
Lemma upsert_workout_shape (workout : obj) (w : World) :
  upsert_workout workout w =
  let out :=
    (existing <- query_first Workout "id" (getattr workout "id") ;;
     match existing with
     | Some existing =>
         update_existing Workout "id" (getattr workout "id")
                         ["id"; "created_at"] workout existing
     | None => session_add Workout workout
     end) w in
  (match fst out with
   | Ok o =>
       Ok (o, negb (existsb (matches "id" (getattr workout "id"))
                            (workouts (current w))))
   | Raise e => Raise e
   end, snd out).
Proof.
  unfold upsert_workout, bind, query_first. cbv beta.
  change (tbl Workout (current w)) with (workouts (current w)).
  destruct (hd_error (filter (matches "id" (getattr workout "id"))
                             (workouts (current w)))) as [ ex | ] eqn:E.
  - apply hd_filter_some in E. destruct E as [_ E]. rewrite E. reflexivity.
  - apply hd_filter_none in E. rewrite E. reflexivity.
Qed.






Lemma transform_achievements_of_dicts (workout_id : value) (items : list value) :
  if forallb is_dict items
  then exists rows,
         rmap (transform_achievement workout_id) items = Ok rows /\
         List.length rows = List.length items /\
         Forall (fun o => lookup "workout_id" o = Some workout_id) rows
  else rmap (transform_achievement workout_id) items = Raise AttributeError.
Proof.
  induction items as [ | a items IH ]; simpl.
  - exists []. auto.
  - destruct a as [ | | | | | | kv | ]; simpl; try reflexivity.
    destruct (forallb is_dict items).
    + destruct IH as (rows & Hr & Hl & Hf). rewrite Hr. simpl.
      eexists. split; [ reflexivity | ].
      split; [ simpl; now rewrite Hl | ].
      constructor; [ reflexivity | exact Hf ].
    + rewrite IH. reflexivity.
Qed.



(* ===================================================================== *)
(** ** Further properties of the run *)
(* ===================================================================== *)

(** However a run ends, the session and the database agree afterwards. *)
Lemma full_sync_settles (L : Lib) (store_accepts : DB -> bool)
      (api : Api) (user_id : value) (max_workouts : Z)
      (include_performance : bool) (w : World) :
  current (snd (full_sync L store_accepts api user_id max_workouts
                  include_performance w))
  = committed (snd (full_sync L store_accepts api user_id max_workouts
                      include_performance w)).
Proof.
  unfold full_sync, get_db_session, try_, bind.
  destruct (sync_user_data L store_accepts api w) as [[user | e] w1];
    [ | reflexivity ].
  cbv beta zeta.
  destruct (sync_workouts L store_accepts api
              (if truthy user_id then user_id else getattr user "id")
              max_workouts include_performance w1) as [[st | e] w2];
    [ | reflexivity ].
  match goal with
  | |- context [create_sync_log ?a ?b ?c ?d ?e ?f] =>
      destruct (create_sync_log a b c d e f) as [[row | e'] w3]
  end; [ | reflexivity ].
  unfold commit, ret, rollback, raise.
  destruct (store_accepts (current w3)) eqn:Eacc; cbn [current fst snd].
  - rewrite Eacc. reflexivity.
  - reflexivity.
Qed.

(** X8. However a run ends, it leaves nothing pending: the session and the
    database agree when [full_sync] returns or raises. *)
Theorem full_sync_leaves_nothing_pending (L : Lib) (store_accepts : DB -> bool)
        (api : Api) (user_id : value) (max_workouts : Z)
        (include_performance : bool) (w : World) :
  current (snd (full_sync L store_accepts api user_id max_workouts
                  include_performance w))
  = committed (snd (full_sync L store_accepts api user_id max_workouts
                      include_performance w)).
Proof. apply full_sync_settles. Qed.


(* ===================================================================== *)
(** ** Invariants of a run *)
(* ===================================================================== *)

Lemma preserves_ret {A} (P : World -> Prop) (a : A) : preserves P (ret a).
Proof. intros w H. exact H. Qed.

Lemma preserves_raise {A} (P : World -> Prop) (e : exn) : preserves P (@raise A e).
Proof. intros w H. exact H. Qed.

Lemma preserves_lift {A} (P : World -> Prop) (r : result A) : preserves P (lift r).
Proof. intros w H. exact H. Qed.

Lemma preserves_bind {A B} (P : World -> Prop) (m : M A) (k : A -> M B) :
  preserves P m -> (forall a, preserves P (k a)) -> preserves P (bind m k).
Proof.
  intros Hm Hk w H. unfold bind. specialize (Hm w H).
  destruct (m w) as [[a | e] w1]; simpl in *.
  - now apply Hk.
  - exact Hm.
Qed.

Lemma preserves_try {A} (P : World -> Prop) (body : M A) (handler : exn -> M A) :
  preserves P body -> (forall e, preserves P (handler e)) ->
  preserves P (try_ body handler).
Proof.
  intros Hb Hh w H. unfold try_. specialize (Hb w H).
  destruct (body w) as [[a | e] w1]; simpl in *.
  - exact Hb.
  - now apply Hh.
Qed.

Lemma preserves_for_each {A} (P : World -> Prop) (xs : list A) (body : A -> M unit) :
  (forall x, preserves P (body x)) -> preserves P (for_each xs body).
Proof.
  intro Hb. induction xs as [ | x xs IH ]; simpl.
  - apply preserves_ret.
  - apply preserves_bind; [ apply Hb | intros _; exact IH ].
Qed.

Lemma preserves_add_all (P : World -> Prop) (m : model) (os : list obj) :
  (forall o, preserves P (session_add m o)) -> preserves P (add_all m os).
Proof.
  intro Hadd. induction os as [ | o os IH ]; simpl.
  - apply preserves_ret.
  - apply preserves_bind; [ apply Hadd | intros _; exact IH ].
Qed.

Create HintDb preserves.
#[export] Hint Extern 1 (_ <> _) => discriminate : preserves.

Ltac preserves_step :=
  match goal with
  | |- preserves _ (bind _ _) => apply preserves_bind; [ | intro ]
  | |- preserves _ (try_ _ _) => apply preserves_try; [ | intro ]
  | |- preserves _ (ret _) => apply preserves_ret
  | |- preserves _ (raise _) => apply preserves_raise
  | |- preserves _ (lift _) => apply preserves_lift
  | |- preserves _ (for_each _ _) => apply preserves_for_each; intro
  | |- preserves _ (add_all _ _) => apply preserves_add_all; intro
  | |- preserves _ (if ?b then _ else _) => destruct b
  | |- preserves _ (match ?x with Some _ => _ | None => _ end) => destruct x
  | |- preserves _ _ => solve [ auto with preserves ]
  end.

Ltac preserves_auto := repeat preserves_step.

Section Steady.

Variable ledger : list obj.
Variable since : Z.

Lemma steady_query_first m col v : preserves (steady ledger since) (query_first m col v).
Proof. intros w H. exact H. Qed.

Lemma steady_write_back m col v o :
  m <> SyncLog -> preserves (steady ledger since) (write_back m col v o).
Proof.
  intros Hm w (H1 & H2 & H3).
  unfold steady, write_back, query_delete, session_add, log.
  cbn [snd with_current current committed clock].
  rewrite tbl_set_tbl_other by (intro E; now apply Hm). auto.
Qed.

Lemma steady_query_delete m col v :
  m <> SyncLog -> preserves (steady ledger since) (query_delete m col v).
Proof.
  intros Hm w (H1 & H2 & H3).
  unfold steady, write_back, query_delete, session_add, log.
  cbn [snd with_current current committed clock].
  rewrite tbl_set_tbl_other by (intro E; now apply Hm). auto.
Qed.

Lemma steady_session_add m o :
  m <> SyncLog -> preserves (steady ledger since) (session_add m o).
Proof.
  intros Hm w (H1 & H2 & H3).
  unfold steady, write_back, query_delete, session_add, log.
  cbn [snd with_current current committed clock].
  rewrite tbl_set_tbl_other by (intro E; now apply Hm). auto.
Qed.

Lemma steady_flush accepts : preserves (steady ledger since) (flush accepts).
Proof. intros w H. exact H. Qed.

Lemma steady_commit accepts : preserves (steady ledger since) (commit accepts).
Proof.
  intros w (H1 & H2 & H3). unfold commit.
  destruct (accepts (current w)); repeat split; simpl; auto.
Qed.

Lemma steady_rollback : preserves (steady ledger since) rollback.
Proof. intros w (H1 & H2 & H3). repeat split; simpl; auto. Qed.

Lemma steady_now : preserves (steady ledger since) now.
Proof. intros w (H1 & H2 & H3). repeat split; simpl; auto. lia. Qed.

Lemma steady_stats (f : Stats -> Stats) :
  preserves (steady ledger since) (fun w => (Ok tt, with_stats (f (stats w)) w)).
Proof. intros w H. exact H. Qed.

Lemma steady_incr_created : preserves (steady ledger since) incr_created.
Proof. intros w H. exact H. Qed.

Lemma steady_incr_updated : preserves (steady ledger since) incr_updated.
Proof. intros w H. exact H. Qed.

Lemma steady_incr_errors : preserves (steady ledger since) incr_errors.
Proof. intros w H. exact H. Qed.

Lemma steady_set_processed n : preserves (steady ledger since) (set_processed n).
Proof. intros w H. exact H. Qed.

Lemma steady_api_user api : preserves (steady ledger since) (api_get_user_info api).
Proof. intros w H. exact H. Qed.

Lemma steady_api_workouts api limit joins :
  preserves (steady ledger since) (api_get_user_workouts api limit joins).
Proof. intros w H. exact H. Qed.

Lemma steady_api_graph api wid :
  preserves (steady ledger since) (api_get_workout_performance_graph api wid).
Proof. intros w H. exact H. Qed.

Hint Resolve steady_query_first steady_write_back steady_query_delete
  steady_session_add steady_flush steady_commit steady_rollback steady_now
  steady_incr_created steady_incr_updated steady_incr_errors
  steady_set_processed steady_api_user steady_api_workouts steady_api_graph
  : preserves.

Lemma steady_update_existing m col key bl cand ex :
  m <> SyncLog -> preserves (steady ledger since) (update_existing m col key bl cand ex).
Proof. intro Hm. unfold update_existing. preserves_auto. Qed.
Hint Resolve steady_update_existing : preserves.

Lemma steady_sync_user_data L accepts api :
  preserves (steady ledger since) (sync_user_data L accepts api).
Proof. unfold sync_user_data. preserves_auto. Qed.

Lemma steady_reconcile L accepts api incl wd :
  preserves (steady ledger since) (reconcile L accepts api incl wd).
Proof.
  unfold reconcile, reconcile_records, upsert_instructor, upsert_ride,
    upsert_workout, sync_workout_achievements, sync_workout_performance_data,
    sync_performance_summary, sync_performance_metrics.
  preserves_auto.
Qed.
Hint Resolve steady_reconcile : preserves.

Lemma steady_sync_workouts L accepts api uid limit incl :
  preserves (steady ledger since) (sync_workouts L accepts api uid limit incl).
Proof.
  unfold sync_workouts, list_and_sync, sync_one_workout.
  repeat first
    [ preserves_step
    | match goal with
      | |- preserves _ (fun w => (Ok tt, with_stats zero_stats w)) =>
          intros ? H; exact H
      | |- preserves _ (fun w => (Ok (stats w), w)) => intros ? H; exact H
      end ].
Qed.

End Steady.


(** The ledger row [create_sync_log] registers. *)
Lemma create_sync_log_row (user_id : value) (sync_type status : string)
      (st : Stats) (error_message : value) (w : World) :
  let out := create_sync_log user_id sync_type status st error_message w in
  exists row,
    out = (Ok row, snd out) /\
    committed (snd out) = committed w /\
    tbl SyncLog (current (snd out)) = tbl SyncLog (current w) ++ [row] /\
    getattr row "user_id" = user_id /\
    getattr row "status" = VStr status /\
    getattr row "workouts_processed" = VInt (Z.of_nat (processed st)) /\
    getattr row "workouts_created" = VInt (Z.of_nat (created st)) /\
    getattr row "workouts_updated" = VInt (Z.of_nat (updated st)) /\
    getattr row "errors_count" = VInt (Z.of_nat (errors st)) /\
    getattr row "completed_at" = VDatetime (mk_datetime (clock w + 1) (Some utc)).
Proof.
  eexists. unfold create_sync_log, bind, now, lift, new_instance, session_add.
  simpl. repeat split.
Qed.

(** What a run started on a fresh session does to the ledger. *)
Lemma full_sync_ledger (L : Lib) (store_accepts : DB -> bool) (api : Api)
      (user_id : value) (max_workouts : Z) (include_performance : bool)
      (w : World) :
  current w = committed w ->
  let run :=
    full_sync L store_accepts api user_id max_workouts include_performance w in
  match fst run with
  | Ok res =>
      exists row t,
        sync_logs (committed (snd run)) = sync_logs (committed w) ++ [row] /\
        getattr row "id" = res_sync_log_id res /\
        getattr row "user_id" = res_user_id res /\
        getattr row "status" = VStr (res_status res) /\
        getattr row "workouts_processed"
          = VInt (Z.of_nat (processed (res_stats res))) /\
        getattr row "workouts_created"
          = VInt (Z.of_nat (created (res_stats res))) /\
        getattr row "workouts_updated"
          = VInt (Z.of_nat (updated (res_stats res))) /\
        getattr row "errors_count" = VInt (Z.of_nat (errors (res_stats res))) /\
        getattr row "completed_at" = VDatetime (mk_datetime t (Some utc)) /\
        (clock w < t)%Z
  | Raise _ => sync_logs (committed (snd run)) = sync_logs (committed w)
  end.
Proof.
  intros Hfresh run.
  set (ledger := tbl SyncLog (committed w)).
  assert (H0 : steady ledger (clock w) w).
  { unfold steady. rewrite Hfresh. repeat split; try reflexivity; lia. }
  pose proof (@steady_sync_user_data ledger (clock w) L store_accepts api w H0)
    as H1.
  unfold run, full_sync, get_db_session, try_, bind.
  destruct (sync_user_data L store_accepts api w) as [[user | e] w1];
    cbn [snd] in H1.
  2:{ cbn [fst snd rollback raise committed]. apply H1. }
  cbv beta zeta.
  pose proof (@steady_sync_workouts ledger (clock w) L store_accepts api
                (if truthy user_id then user_id else getattr user "id")
                max_workouts include_performance w1 H1) as H2.
  destruct (sync_workouts L store_accepts api
              (if truthy user_id then user_id else getattr user "id")
              max_workouts include_performance w1) as [[st | e] w2];
    cbn [snd] in H2.
  2:{ cbn [fst snd rollback raise committed]. apply H2. }
  destruct H2 as (Hcur & Hcom & Hclock).
  match goal with
  | |- context [create_sync_log ?a ?b ?c ?d ?e ?f] =>
      destruct (create_sync_log_row a b c d e f)
        as (row & Hrow & Hc3 & Ht3 & Hu & Hs & Hp & Hcr & Hup & Her & Hat);
      rewrite Hrow;
      set (w3 := snd (create_sync_log a b c d e f)) in *
  end.
  unfold commit, ret, rollback, raise.
  destruct (store_accepts (current w3)) eqn:Eacc;
    cbn [current fst snd committed log].
  - rewrite Eacc. cbn [fst snd committed res_status res_stats res_user_id
                         res_sync_log_id].
    exists row, (clock w2 + 1)%Z.
    change (sync_logs (current w3)) with (tbl SyncLog (current w3)).
    rewrite Ht3, Hcur.
    repeat (split; [ first [ reflexivity | assumption ] | ]). lia.
  - change (sync_logs (committed w3)) with (tbl SyncLog (committed w3)).
    rewrite Hc3. exact Hcom.
Qed.

(** X9. The ledger is append-only: a run started on a fresh session adds
    exactly one row to the stored ledger when it returns, carrying the
    status, the counters and the ledger id it reports and completed after
    the run began; it leaves the stored ledger as it was when it raises.
    Earlier rows are never changed or removed. *)
Theorem ledger_append_only (L : Lib) (store_accepts : DB -> bool) (api : Api)
        (user_id : value) (max_workouts : Z) (include_performance : bool)
        (w : World) :
  current w = committed w ->
  let run :=
    full_sync L store_accepts api user_id max_workouts include_performance w in
  match fst run with
  | Ok res =>
      exists row t,
        sync_logs (committed (snd run)) = sync_logs (committed w) ++ [row] /\
        getattr row "id" = res_sync_log_id res /\
        getattr row "user_id" = res_user_id res /\
        getattr row "status" = VStr (res_status res) /\
        getattr row "workouts_processed"
          = VInt (Z.of_nat (processed (res_stats res))) /\
        getattr row "workouts_created"
          = VInt (Z.of_nat (created (res_stats res))) /\
        getattr row "workouts_updated"
          = VInt (Z.of_nat (updated (res_stats res))) /\
        getattr row "errors_count" = VInt (Z.of_nat (errors (res_stats res))) /\
        getattr row "completed_at" = VDatetime (mk_datetime t (Some utc)) /\
        (clock w < t)%Z
  | Raise _ => sync_logs (committed (snd run)) = sync_logs (committed w)
  end.
Proof. apply full_sync_ledger. Qed.

Lemma ledger_append_only_witness :
  let api := sample_api (sample_user "rider" 1000)
                        (listing [workout_without_id]) no_graph in
  let run := full_sync sample_lib schema_accepts api VNone 100 true
                       first_run_world in
  List.length (sync_logs (committed first_run_world)) = 1 /\
  List.length (sync_logs (committed (snd run))) = 2.
Proof.
  intros api run. split; [ vm_compute; reflexivity | ].
  pose proof (@ledger_append_only sample_lib schema_accepts api VNone 100 true
                first_run_world) as H.
  assert (Hfresh : current first_run_world = committed first_run_world)
    by (vm_compute; reflexivity).
  specialize (H Hfresh). cbv zeta in H.
  assert (E : exists res,
             fst (full_sync sample_lib schema_accepts api VNone 100 true
                            first_run_world) = Ok res)
    by (eexists; vm_compute; reflexivity).
  destruct E as [res E]. rewrite E in H.
  destruct H as (row & t & H & _). subst run. rewrite H, length_app.
  vm_compute. reflexivity.
Defined.


Lemma first_desc_snoc (rows : list obj) (row : obj) :
  (forall r, In r rows -> later row r = true) ->
  first_desc (rows ++ [row]) = Some row.
Proof.
  induction rows as [ | r rows IH ]; simpl; intro H; [ reflexivity | ].
  rewrite IH by (intros r' Hr'; apply H; now right).
  rewrite (H r) by now left. reflexivity.
Qed.

Lemma filter_snoc_out {A} (p : A -> bool) (l : list A) (x : A) :
  p x = false -> filter p (l ++ [x]) = filter p l.
Proof. intro H. rewrite filter_app. simpl. rewrite H. apply app_nil_r. Qed.

Lemma filter_snoc_in {A} (p : A -> bool) (l : list A) (x : A) :
  p x = true -> filter p (l ++ [x]) = filter p l ++ [x].
Proof. intro H. rewrite filter_app. simpl. rewrite H. reflexivity. Qed.

(** A ledger whose rows were all completed by the time the clock shows. *)
Lemma completed_by_check (w : World) :
  forallb (fun r => match completed_key r with
                    | Some t => (t <=? clock w)%Z
                    | None => false
                    end) (sync_logs (committed w)) = true ->
  forall r, In r (sync_logs (committed w)) ->
            exists t, completed_key r = Some t /\ (t <= clock w)%Z.
Proof.
  intros H r Hr. rewrite forallb_forall in H. specialize (H r Hr).
  destruct (completed_key r) as [ t | ]; [ | discriminate ].
  exists t. split; [ reflexivity | now apply Z.leb_le ].
Qed.




(* ===================================================================== *)
(** ** The counters *)
(* ===================================================================== *)

Lemma commit_keeps_stats {X} (g : Stats -> X) accepts :
  keeps (fun w => g (stats w)) (commit accepts).
Proof. intro w. unfold commit. destruct (accepts (current w)); reflexivity. Qed.

Lemma commit_keeps_done accepts : keeps done_count (commit accepts).
Proof. exact (commit_keeps_stats (fun s => created s + updated s) accepts). Qed.

Lemma commit_keeps_errors accepts : keeps error_count (commit accepts).
Proof. exact (commit_keeps_stats errors accepts). Qed.

Lemma commit_keeps_processed accepts : keeps processed_count (commit accepts).
Proof. exact (commit_keeps_stats processed accepts). Qed.
#[export] Hint Resolve commit_keeps_done commit_keeps_errors
  commit_keeps_processed : keeps.

Ltac unfold_reconcile :=
  unfold reconcile, reconcile_records, upsert_instructor, upsert_ride,
    upsert_workout, update_existing, sync_workout_achievements,
    sync_workout_performance_data, sync_performance_summary,
    sync_performance_metrics.

Lemma reconcile_keeps_errors L accepts api incl wd :
  keeps error_count (reconcile L accepts api incl wd).
Proof. unfold_reconcile. keeps_auto. Qed.

Lemma reconcile_keeps_processed L accepts api incl wd :
  keeps processed_count (reconcile L accepts api incl wd).
Proof. unfold_reconcile. keeps_auto. Qed.

Lemma counts_after {A B} (m : M A) (k : A -> M B) :
  keeps done_count m -> (forall a, counts (k a)) -> counts (bind m k).
Proof.
  intros Hm Hk w. unfold bind. specialize (Hm w).
  destruct (m w) as [[a | e] w1]; cbn [fst snd] in *.
  - specialize (Hk a w1). rewrite <- Hm. exact Hk.
  - left. exact Hm.
Qed.

Lemma counts_then {A B} (m : M A) (k : A -> M B) :
  counts m -> (forall a, keeps done_count (k a)) -> counts (bind m k).
Proof.
  intros Hm Hk w. unfold bind. specialize (Hm w).
  destruct (m w) as [[a | e] w1]; cbn [fst snd] in *.
  - specialize (Hk a w1).
    destruct (k a w1) as [[b | e] w2]; cbn [fst snd] in *.
    + congruence.
    + right. congruence.
  - exact Hm.
Qed.

Lemma reconcile_counts L accepts api incl wd :
  counts (reconcile L accepts api incl wd).
Proof.
  unfold reconcile. apply counts_then.
  - unfold reconcile_records.
    apply counts_after; [ keeps_auto | intro c ].
    apply counts_after;
      [ unfold upsert_instructor, update_existing; keeps_auto | intros _ ].
    apply counts_after;
      [ unfold upsert_ride, update_existing; keeps_auto | intros _ ].
    apply counts_after;
      [ unfold upsert_workout, update_existing; keeps_auto | intro u ].
    apply counts_then.
    + intro w. destruct (snd u); cbn; unfold done_count; cbn; lia.
    + intros _. unfold sync_workout_achievements. keeps_auto.
  - intro workout.
    unfold sync_workout_performance_data, sync_performance_summary,
      sync_performance_metrics, update_existing.
    keeps_auto.
Qed.

(** One iteration on an object payload: it returns, leaves [processed]
    alone, and counts the workout as done, as an error, or as both. *)
Lemma sync_one_workout_counts L accepts api incl kv w :
  let out := sync_one_workout L accepts api incl (VDict kv) w in
  fst out = Ok tt /\
  processed_count (snd out) = processed_count w /\
  ((error_count (snd out) = error_count w /\
    done_count (snd out) = S (done_count w)) \/
   (error_count (snd out) = S (error_count w) /\
    (done_count (snd out) = done_count w \/
     done_count (snd out) = S (done_count w)))).
Proof.
  intro out. unfold out, sync_one_workout, try_.
  pose proof (reconcile_counts L accepts api incl (VDict kv) w) as Hd.
  pose proof (reconcile_keeps_errors L accepts api incl (VDict kv) w) as He.
  pose proof (reconcile_keeps_processed L accepts api incl (VDict kv) w) as Hp.
  destruct (reconcile L accepts api incl (VDict kv) w) as [[[] | e] w1];
    cbn [fst snd] in *.
  - auto.
  - split; [ reflexivity | ]. split; [ exact Hp | ]. right.
    split; [ unfold error_count in *; cbn; now rewrite He | ].
    exact Hd.
Qed.

Lemma for_each_counts L accepts api incl (items : list value) (w : World) :
  forallb is_dict items = true ->
  let out := for_each items (sync_one_workout L accepts api incl) w in
  fst out = Ok tt /\
  processed_count (snd out) = processed_count w /\
  done_count w <= done_count (snd out) <= done_count w + List.length items /\
  error_count w <= error_count (snd out) <= error_count w + List.length items /\
  done_count w + error_count w + List.length items
    <= done_count (snd out) + error_count (snd out).
Proof.
  revert w. induction items as [ | p items IH ]; intros w Hd; cbn [for_each].
  - cbn. repeat split; lia.
  - cbn [forallb] in Hd. apply andb_prop in Hd. destruct Hd as [Hp Hrest].
    destruct p as [ | | | | | | kv | ]; try discriminate.
    destruct (sync_one_workout_counts L accepts api incl kv w)
      as (Hok & Hproc & Hcount).
    unfold bind.
    destruct (sync_one_workout L accepts api incl (VDict kv) w) as [r w1].
    cbn [fst snd] in *. subst r.
    destruct (IH w1 Hrest) as (Hok' & Hproc' & Hd' & He' & Hsum').
    cbn [List.length].
    split; [ exact Hok' | ]. split; [ congruence | ].
    destruct Hcount as [[E D] | [E [D | D]]]; repeat split; lia.
Qed.

(** X12. The counters of [sync_workouts]: when the listing answers with a
    list of workout objects, [processed] is the length of that list, neither
    [created + updated] nor [errors] exceeds it, every workout is counted
    at least once ([processed <= created + updated + errors]; a workout that
    fails after its upsert is counted twice), and a run without errors has
    created or updated every workout. *)
Theorem sync_workouts_counters (L : Lib) (store_accepts : DB -> bool) (api : Api)
        (user_id : value) (limit : Z) (include_performance : bool) (w : World)
        (payload : value) (items : list value) :
  get_user_workouts api limit "ride,ride.instructor" = Ok payload ->
  dict_get payload "data" (VList []) = Ok (VList items) ->
  forallb is_dict items = true ->
  exists st,
    fst (sync_workouts L store_accepts api user_id limit include_performance w)
      = Ok st /\
    processed st = List.length items /\
    created st + updated st <= processed st /\
    errors st <= processed st /\
    processed st <= created st + updated st + errors st /\
    (errors st = 0 -> created st + updated st = processed st).
Proof.
  intros Hlist Hdata Hdicts.
  pose proof (sync_workouts_returns L store_accepts api user_id limit
                include_performance w) as Hret.
  eexists. split; [ exact Hret | ].
  unfold sync_workouts, list_and_sync, try_, bind, api_get_user_workouts, lift,
    set_processed.
  rewrite Hlist. cbn [fst snd]. rewrite Hdata. cbn [py_len py_iter fst snd].
  match goal with
  | |- context [for_each items ?body ?w0] =>
      destruct (@for_each_counts L store_accepts api include_performance items
                  w0 Hdicts) as (Hok & Hp & Hd & He & Hsum);
      destruct (for_each items body w0) as [r w1]
  end.
  cbn [fst snd] in *. subst r. cbn [fst snd].
  unfold processed_count, done_count, error_count in *. cbn in Hp, Hd, He, Hsum.
  repeat split; lia.
Qed.

Lemma sync_workouts_counters_witness :
  let api := sample_api (sample_user "rider" 1000)
               (listing [sample_workout "w1"; workout_without_id;
                         workout_without_start_time "w3"])
               no_graph in
  exists st,
    fst (sync_workouts sample_lib schema_accepts api (VStr "u1") 100 true
           first_run_world) = Ok st /\
    processed st = 3 /\ created st + updated st <= 3 /\ errors st <= 3.
Proof.
  intro api.
  destruct (@sync_workouts_counters sample_lib schema_accepts api (VStr "u1") 100
              true first_run_world _ _ eq_refl eq_refl eq_refl)
    as (st & H1 & H2 & H3 & H4 & _).
  exists st. split; [ exact H1 | ]. split; [ exact H2 | ].
  rewrite H2 in H3, H4. auto.
Defined.

(** X11. [sync_data] never raises.  Without a data loader it returns
    [False] and does nothing; otherwise it runs [full_sync] for the
    authenticated user, with the configured cap when no (or a zero) cap is
    given and with performance data only if both the caller and the
    configuration ask for it, and returns [True] exactly when the run
    returned with no error counted or with something created or updated. *)
Theorem sync_data_outcome (L : Lib) (store_accepts : DB -> bool) (api : Api)
        (loader : bool) (config_max : Z) (config_performance : bool)
        (max_workouts : option Z) (include_performance : bool) (w : World) :
  let out := sync_data L store_accepts api loader config_max config_performance
                       max_workouts include_performance w in
  let cap := match max_workouts with
             | Some n => if (n =? 0)%Z then config_max else n
             | None => config_max
             end in
  let run := full_sync L store_accepts api VNone cap
                       (include_performance && config_performance) w in
  exists b,
    fst out = Ok b /\
    if loader
    then snd out = snd run /\
         (b = true <->
          exists res, fst run = Ok res /\
                      (errors (res_stats res) = 0 \/
                       created (res_stats res) + updated (res_stats res) > 0))
    else b = false /\ snd out = w.
Proof.
  intros out cap run. unfold out, sync_data.
  destruct loader; cbn [negb]; [ | exists false; auto ].
  fold cap. unfold try_, bind. fold run.
  pose proof (full_sync_outcome L store_accepts api VNone cap
                (include_performance && config_performance) w) as Ho.
  fold run in Ho.
  destruct run as [[res | e] w1]; cbn [fst snd].
  - destruct (status_of_cases (res_stats res)) as (Hs & Hp & He).
    rewrite <- Ho in Hs, Hp, He.
    destruct (String.eqb (res_status res) "success") eqn:E1.
    + exists true. split; [ reflexivity | ]. split; [ reflexivity | ].
      split; [ | reflexivity ]. intros _. exists res. split; [ reflexivity | ].
      left. apply Hs. now apply String.eqb_eq.
    + destruct (String.eqb (res_status res) "partial") eqn:E2.
      * exists true. split; [ reflexivity | ]. split; [ reflexivity | ].
        split; [ | reflexivity ]. intros _. exists res.
        split; [ reflexivity | ]. right.
        apply String.eqb_eq in E2. apply Hp in E2. apply E2.
      * exists false. split; [ reflexivity | ]. split; [ reflexivity | ].
        split; [ discriminate | ].
        intros (res' & Hr & Hres). injection Hr as <-.
        apply String.eqb_neq in E1. apply String.eqb_neq in E2.
        destruct Hres as [H0 | Hpos].
        -- apply Hs in H0. contradiction.
        -- destruct (Nat.eq_dec (errors (res_stats res)) 0) as [Hz | Hnz].
           ++ apply Hs in Hz. contradiction.
           ++ assert (Hpart : res_status res = "partial")
                by (apply Hp; split; [ lia | exact Hpos ]).
              contradiction.
  - exists false. split; [ reflexivity | ]. split; [ reflexivity | ].
    split; [ discriminate | ]. intros (res & Hr & _). discriminate.
Qed.


(* ===================================================================== *)
(** ** Referential order *)
(* ===================================================================== *)

Lemma transform_workout_data_ride_id (L : Lib) (workout_data : value)
      (workout : obj) :
  transform_workout_data L workout_data = Ok workout ->
  exists i rid,
    lookup "id" workout = Some i /\
    workout_ride_id workout_data = Ok rid /\
    lookup "ride_id" workout = Some rid /\
    lookup "ride_id" (rev workout) = Some rid.
Proof.
  destruct workout_data as [ | | | | | | kv | ]; try discriminate.
  unfold transform_workout_data, new_instance. simpl.
  destruct (lookup "id" kv) as [ i | ]; simpl; [ | discriminate ].
  destruct (workout_ride_id (VDict kv)) as [ rid | ]; simpl; [ | discriminate ].
  destruct (parse_field L (VDict kv) "start_time"); simpl; [ | discriminate ].
  destruct (parse_field L (VDict kv) "end_time"); simpl; [ | discriminate ].
  destruct (parse_field L (VDict kv) "created_at"); simpl; [ | discriminate ].
  destruct (parse_field L (VDict kv) "device_time_created_at"); simpl;
    [ | discriminate ].
  intro H. injection H as <-.
  exists i, rid.
  split; [ reflexivity | ]. split; [ reflexivity | ].
  split; reflexivity.
Qed.

Lemma transform_ride_data_id (L : Lib) (ride_data : value) (ride : obj) :
  transform_ride_data L ride_data = Ok ride ->
  exists i, subscript ride_data "id" = Ok i /\ lookup "id" ride = Some i.
Proof.
  intro H. destruct (transform_needs_id_ride L ride_data) as [Hr | Hr].
  - destruct Hr as (i & o & Hs & Ho & Hl). rewrite Ho in H. injection H as <-.
    exists i. auto.
  - destruct Hr as (e & Hr). rewrite Hr in H. discriminate.
Qed.



